(** * pkg/builder/webhook.go: the webhook builder of controller-runtime

    A shallow embedding of [WebhookBuilder] and of the functions of
    [pkg/builder/webhook.go], followed by the properties of the path naming
    scheme and of [Complete].

    Go strings are byte sequences: they are modelled by [string], whose
    characters are the 8-bit [ascii].  The builder is a pointer that
    [Complete] mutates, and the webhook server is shared with the manager:
    both live in an explicit state threaded through a small state monad with
    panics. *)

From Stdlib Require Import String Ascii List Bool ZArith Arith Lia.
Import ListNotations.
Local Open Scope string_scope.

Set Implicit Arguments.

(** ** The [strings] package *)

(** What the Go standard library does on the code paths that decode UTF-8 is
    outside this repository; these two operations are taken from the
    environment. *)
Class GoStrings := {
  (** [strings.Map(unicode.ToLower, s)], the path of [strings.ToLower] for a
      string with a byte outside ASCII *)
  mapUnicodeToLower : string -> string;
  (** [strings.Replace(s, "", new, n)] with [new] non-empty and [n <> 0]:
      insertion at rune boundaries *)
  replaceEmptyOld : string -> string -> Z -> string
}.

Fixpoint mapBytes (f : ascii -> ascii) (s : string) : string :=
  match s with
  | EmptyString => EmptyString
  | String c s' => String (f c) (mapBytes f s')
  end.

Fixpoint allBytes (p : ascii -> bool) (s : string) : bool :=
  match s with
  | EmptyString => true
  | String c s' => p c && allBytes p s'
  end.

Fixpoint anyByte (p : ascii -> bool) (s : string) : bool :=
  match s with
  | EmptyString => false
  | String c s' => p c || anyByte p s'
  end.

(** [c < utf8.RuneSelf] *)
Definition isASCIIByte (c : ascii) : bool := (nat_of_ascii c <? 128)%nat.

(** ['A' <= c && c <= 'Z'] *)
Definition isUpperByte (c : ascii) : bool :=
  (65 <=? nat_of_ascii c)%nat && (nat_of_ascii c <=? 90)%nat.

(** [c += 'a' - 'A'] under the test ['A' <= c && c <= 'Z'] *)
Definition lowerByte (c : ascii) : ascii :=
  if isUpperByte c then ascii_of_nat (nat_of_ascii c + 32) else c.

(** The replacement loop of [strings.Replace] for a non-empty [old]: the
    occurrences are found left to right and do not overlap; [n] counts the
    replacements still allowed, a negative [n] never reaches zero.  [skip]
    is the number of bytes of the current occurrence still to be dropped. *)
Fixpoint replaceLoop (old new : string) (n : Z) (skip : nat) (s : string)
  : string :=
  match s with
  | EmptyString => EmptyString
  | String c s' =>
      match skip with
      | S k => replaceLoop old new n k s'
      | O =>
          if negb (n =? 0)%Z && prefix old s
          then new ++ replaceLoop old new (n - 1) (String.length old - 1) s'
          else String c (replaceLoop old new n 0 s')
      end
  end.

Section Strings.
Context `{GoStrings}.

(** [strings.ToLower] *)
Definition ToLower (s : string) : string :=
  if allBytes isASCIIByte s
  then (if anyByte isUpperByte s then mapBytes lowerByte s else s)
  else mapUnicodeToLower s.

(** [strings.Replace] *)
Definition Replace (s old new : string) (n : Z) : string :=
  if (old =? new) || (n =? 0)%Z then s
  else match old with
       | EmptyString => replaceEmptyOld s new n
       | String _ _ => replaceLoop old new n 0 s
       end.
End Strings.

(** ** [schema.GroupVersionKind] *)

Record GroupVersionKind := {
  Group : string;
  Version : string;
  Kind : string
}.

Section Paths.
Context `{GoStrings}.

Definition generateMutatePath (gvk : GroupVersionKind) : string :=
  "/mutate-" ++ Replace (Group gvk) "." "-" (-1) ++ "-" ++
    Version gvk ++ "-" ++ ToLower (Kind gvk).

Definition generateValidatePath (gvk : GroupVersionKind) : string :=
  "/validate-" ++ Replace (Group gvk) "." "-" (-1) ++ "-" ++
    Version gvk ++ "-" ++ ToLower (Kind gvk).
End Paths.

(** The words of the naming scheme: every dot becomes a dash. *)
Definition dotToDash (c : ascii) : ascii :=
  if Ascii.eqb c "." then "-"%char else c.

Definition dotsReplacedByDashes (s : string) : string := mapBytes dotToDash s.

(** An environment that is enough to run the path functions on ASCII input. *)
Definition asciiOnlyStrings : GoStrings :=
  {| mapUnicodeToLower := fun s => s;
     replaceEmptyOld := fun s _ _ => s |}.

(** ** The host environment

    Everything [webhook.go] calls outside its own file: the manager and its
    scheme, the [apiutil], [admission] and [conversion] packages, the ambient
    configuration loader [getConfig], and the webhook server with its
    [http.ServeMux]. *)
Class Host := {
  (** non-nil [runtime.Object] values *)
  Object : Type;
  Scheme : Type;
  (** what a non-nil [*rest.Config] points to *)
  Config : Type;
  (** non-nil [error] values *)
  GoError : Type;
  (** non-nil [*admission.Webhook] values *)
  Handler : Type;
  (** non-nil [http.Handler] values, as the mux returns them *)
  HTTPHandler : Type;
  (** the state of the manager's [*webhook.Server], its [WebhookMux]
      included *)
  Server : Type;

  (** the ambient loader: the pair [(config, err)] it returns *)
  getConfig : option Config * option GoError;
  (** [apiutil.GVKForObject(obj, scheme)] *)
  GVKForObject : option Object -> Scheme -> GroupVersionKind * option GoError;
  (** [conversion.CheckConvertibility(scheme, obj)] *)
  CheckConvertibility : Scheme -> option Object -> option GoError;
  (** the type assertions [obj.(admission.Defaulter)] and
      [obj.(admission.Validator)] *)
  implementsDefaulter : Object -> bool;
  implementsValidator : Object -> bool;
  (** the handler constructors; [None] is the nil handler *)
  DefaultingWebhookFor : Object -> option Handler;
  ValidatingWebhookFor : Object -> option Handler;
  (** [WebhookMux.Handler(&http.Request{URL: &url.URL{Path: path}})]: the
      handler ([None] for nil) and the matched pattern *)
  muxHandler : Server -> string -> option HTTPHandler * string;
  (** [Server.Register(path, hook)]; [None] when it panics *)
  ServerRegister : Server -> string -> Handler -> option Server
}.

(** A call either returns or panics. *)
Inductive Outcome (A : Type) :=
| Returns (a : A)
| Panics.
Arguments Panics {A}.

Section Builder.
Context `{GoStrings} `{Host}.

(** [manager.Manager], as far as the builder uses it.  Its webhook server
    is shared and mutable: it is kept in the [World]. *)
Record Manager := {
  GetConfig : option Config;
  GetScheme : Scheme
}.

Record WebhookBuilder := {
  apiType : option Object;
  gvk : GroupVersionKind;
  mgr : option Manager;
  config : option Config
}.

(** The calls that leave the file, and the log lines. *)
Inductive Event :=
| EvGetConfig
| EvGVKForObject (obj : option Object) (scheme : Scheme)
| EvRegister (path : string) (hook : Handler)
| EvCheckConvertibility (scheme : Scheme) (obj : option Object)
| EvLogInfo (msg : string) (g : GroupVersionKind) (path : string)
| EvLogError (err : GoError) (msg : string) (g : GroupVersionKind).

Record World := {
  blder : WebhookBuilder;
  server : Server;
  trace : list Event
}.

Definition M (A : Type) : Type := World -> Outcome A * World.

Definition ret {A} (a : A) : M A := fun w => (Returns a, w).

Definition bind {A B} (c : M A) (k : A -> M B) : M B :=
  fun w =>
    match c w with
    | (Returns a, w') => k a w'
    | (Panics, w') => (Panics, w')
    end.

Definition panic {A} : M A := fun w => (Panics, w).

Notation "x <- c ;; k" := (bind c (fun x => k))
  (at level 61, c at next level, right associativity).
Notation "c ;; k" := (bind c (fun _ => k))
  (at level 61, right associativity).

Definition getBuilder : M WebhookBuilder := fun w => (Returns (blder w), w).

Definition setBuilder (b : WebhookBuilder) : M unit :=
  fun w => (Returns tt, {| blder := b; server := server w; trace := trace w |}).

Definition getServer : M Server := fun w => (Returns (server w), w).

Definition setServer (s : Server) : M unit :=
  fun w => (Returns tt, {| blder := blder w; server := s; trace := trace w |}).

Definition emit (e : Event) : M unit :=
  fun w => (Returns tt,
            {| blder := blder w; server := server w; trace := trace w ++ [e] |}).

(** [blder.config = c] *)
Definition setConfig (c : option Config) : M unit :=
  b <- getBuilder ;;
  setBuilder {| apiType := apiType b; gvk := gvk b; mgr := mgr b; config := c |}.

(** [blder.gvk = g] *)
Definition setGVK (g : GroupVersionKind) : M unit :=
  b <- getBuilder ;;
  setBuilder {| apiType := apiType b; gvk := g; mgr := mgr b; config := config b |}.

(** A method call on [blder.mgr]: a nil manager panics. *)
Definition theManager : M Manager :=
  b <- getBuilder ;;
  match mgr b with
  | Some m => ret m
  | None => panic
  end.

(** [blder.mgr.GetWebhookServer().Register(path, hook)] *)
Definition registerOnServer (path : string) (hook : Handler) : M unit :=
  _ <- theManager ;;
  emit (EvRegister path hook) ;;
  s <- getServer ;;
  match ServerRegister s path hook with
  | Some s' => setServer s'
  | None => panic
  end.

Definition zeroGVK : GroupVersionKind :=
  {| Group := ""; Version := ""; Kind := "" |}.

Definition WebhookManagedBy (m : option Manager) : WebhookBuilder :=
  {| apiType := None; gvk := zeroGVK; mgr := m; config := None |}.

Definition For (b : WebhookBuilder) (t : option Object) : WebhookBuilder :=
  {| apiType := t; gvk := gvk b; mgr := mgr b; config := config b |}.

Definition loadRestConfig : M (option GoError) :=
  b <- getBuilder ;;
  match config b with
  | Some _ => ret None
  | None =>
      match mgr b with
      | Some m => setConfig (GetConfig m) ;; ret None
      | None =>
          emit EvGetConfig ;;
          setConfig (fst getConfig) ;;
          ret (snd getConfig)
      end
  end.

Definition isSome {A} (o : option A) : bool :=
  match o with Some _ => true | None => false end.

(** The test of [isAlreadyHandled] on what the mux returns. *)
Definition exactMatch (r : option HTTPHandler * string) (path : string) : bool :=
  (snd r =? path) && isSome (fst r).

Definition isAlreadyHandled (path : string) : M bool :=
  _ <- theManager ;;
  s <- getServer ;;
  if exactMatch (muxHandler s path) path then ret true else ret false.

Definition registerDefaultingWebhook : M unit :=
  b <- getBuilder ;;
  match apiType b with
  | Some defaulter =>
      if implementsDefaulter defaulter then
        match DefaultingWebhookFor defaulter with
        | Some mwh =>
            let path := generateMutatePath (gvk b) in
            handled <- isAlreadyHandled path ;;
            if negb handled then
              emit (EvLogInfo "Registering a mutating webhook" (gvk b) path) ;;
              registerOnServer path mwh
            else ret tt
        | None => ret tt
        end
      else ret tt
  | None => ret tt
  end.

Definition registerValidatingWebhook : M unit :=
  b <- getBuilder ;;
  match apiType b with
  | Some validator =>
      if implementsValidator validator then
        match ValidatingWebhookFor validator with
        | Some vwh =>
            let path := generateValidatePath (gvk b) in
            handled <- isAlreadyHandled path ;;
            if negb handled then
              emit (EvLogInfo "Registering a validating webhook" (gvk b) path) ;;
              registerOnServer path vwh
            else ret tt
        | None => ret tt
        end
      else ret tt
  | None => ret tt
  end.

Definition registerWebhooks : M (option GoError) :=
  m <- theManager ;;
  b <- getBuilder ;;
  emit (EvGVKForObject (apiType b) (GetScheme m)) ;;
  let r := GVKForObject (apiType b) (GetScheme m) in
  setGVK (fst r) ;;
  match snd r with
  | Some err => ret (Some err)
  | None =>
      registerDefaultingWebhook ;;
      registerValidatingWebhook ;;
      m' <- theManager ;;
      b' <- getBuilder ;;
      emit (EvCheckConvertibility (GetScheme m') (apiType b')) ;;
      match CheckConvertibility (GetScheme m') (apiType b') with
      | Some err => emit (EvLogError err "conversion check failed" (gvk b'))
      | None => ret tt
      end ;;
      ret None
  end.

Definition Complete : M (option GoError) :=
  e <- loadRestConfig ;;
  match e with
  | Some err => ret (Some err)
  | None => registerWebhooks
  end.

(** The [Register] calls of a trace, in order. *)
Fixpoint registrations (t : list Event) : list (string * Handler) :=
  match t with
  | [] => []
  | EvRegister path hook :: t' => (path, hook) :: registrations t'
  | _ :: t' => registrations t'
  end.

(** The registry lookups of a trace. *)
Fixpoint lookups (t : list Event) : nat :=
  match t with
  | [] => 0
  | EvGVKForObject _ _ :: t' => S (lookups t')
  | _ :: t' => lookups t'
  end.
End Builder.

(** ** Words of the specification *)

Definition notDash (c : ascii) : bool := negb (Ascii.eqb c "-").

(** A string without the byte ['-']. *)
Definition dashFree (s : string) : bool := allBytes notDash s.

Definition isLowerAlnum (c : ascii) : bool :=
  ((97 <=? nat_of_ascii c)%nat && (nat_of_ascii c <=? 122)%nat)
  || ((48 <=? nat_of_ascii c)%nat && (nat_of_ascii c <=? 57)%nat).

(** The alphabets of the Kubernetes API conventions: a group is a DNS
    subdomain (lowercase letters, digits, ['-'] and ['.']), a version is a
    DNS label made of lowercase letters and digits ([v1], [v1beta1]), and a
    kind is a CamelCase word of ASCII letters and digits. *)
Definition groupByte (c : ascii) : bool :=
  isLowerAlnum c || Ascii.eqb c "-" || Ascii.eqb c ".".

Definition kindByte (c : ascii) : bool := isLowerAlnum c || isUpperByte c.

Definition KubernetesStyle (g : GroupVersionKind) : bool :=
  allBytes groupByte (Group g) && allBytes isLowerAlnum (Version g)
  && allBytes kindByte (Kind g).

(** The identities on which the path scheme can be read back: no ['-'] in the
    group, the version or the kind, and an ASCII kind. *)
Definition DashFreeIdentity (g : GroupVersionKind) : bool :=
  dashFree (Group g) && dashFree (Version g)
  && dashFree (Kind g) && allBytes isASCIIByte (Kind g).

Definition isDot (c : ascii) : bool := Ascii.eqb c ".".

(** The identity a path is read from: the group with its dots replaced and
    the kind lowered byte by byte. *)
Definition normalised (g : GroupVersionKind) : GroupVersionKind :=
  {| Group := dotsReplacedByDashes (Group g);
     Version := Version g;
     Kind := mapBytes lowerByte (Kind g) |}.

Section BuilderWords.
Context `{GoStrings} `{Host}.
Local Open Scope list_scope.

(** The handler of the defaulting capability: none when the target type
    is nil or lacks the capability, or when the constructor returns nil. *)
Definition defaultingHandler (t : option Object) : option Handler :=
  match t with
  | Some o => if implementsDefaulter o then DefaultingWebhookFor o else None
  | None => None
  end.

Definition validatingHandler (t : option Object) : option Handler :=
  match t with
  | Some o => if implementsValidator o then ValidatingWebhookFor o else None
  | None => None
  end.

(** The path is already handled: the mux returns a non-nil handler and the
    matched pattern is the path itself. *)
Definition handledAt (s : Server) (path : string) : bool :=
  exactMatch (muxHandler s path) path.

(** What the builder relies on from the webhook server at the path [p]:
    [Register] returns normally on a path that is not handled yet; *)
Definition RegisterReturnsAt (p : string) : Prop :=
  forall s hook, handledAt s p = false -> ServerRegister s p hook <> None.



(** The registration that is due for a handler at a path: none for a nil
    handler or a path that is handled already. *)
Definition due (s : Server) (path : string) (hook : option Handler)
  : list (string * Handler) :=
  match hook with
  | Some h => if handledAt s path then [] else [(path, h)]
  | None => []
  end.

(** The server once the due registration has returned. *)
Definition afterDue (s : Server) (path : string) (hook : option Handler)
  : Server :=
  match hook with
  | Some h =>
      if handledAt s path then s
      else match ServerRegister s path h with
           | Some s' => s'
           | None => s
           end
  | None => s
  end.

(** One registration step, as a function of the handler at hand. *)
Definition registerIfNew (msg : string) (g : GroupVersionKind)
  (path : string) (hook : option Handler) : M unit :=
  fun w =>
    match hook with
    | None => (Returns tt, w)
    | Some h =>
        if handledAt (server w) path then (Returns tt, w)
        else
          let t :=
            ((trace w ++ [EvLogInfo msg g path]) ++ [EvRegister path h])%list in
          match ServerRegister (server w) path h with
          | Some s' => (Returns tt, {| blder := blder w; server := s'; trace := t |})
          | None => (Panics, {| blder := blder w; server := server w; trace := t |})
          end
    end.

(** The events of the conversion check. *)
Definition conversionEvents (m : Manager) (b : WebhookBuilder) : list Event :=
  EvCheckConvertibility (GetScheme m) (apiType b)
  :: match CheckConvertibility (GetScheme m) (apiType b) with
     | Some err => [EvLogError err "conversion check failed" (gvk b)]
     | None => []
     end.

(** [Complete] from the point where configuration and identity are
    resolved, on a builder bound to the manager [m]. *)
Definition completeResolved (m : Manager) (g : GroupVersionKind)
  : M (option GoError) :=
  fun w0 =>
    match registerIfNew "Registering a mutating webhook" g
            (generateMutatePath g) (defaultingHandler (apiType (blder w0))) w0
    with
    | (Panics, w1) => (Panics, w1)
    | (Returns _, w1) =>
        match registerIfNew "Registering a validating webhook" g
                (generateValidatePath g)
                (validatingHandler (apiType (blder w1))) w1
        with
        | (Panics, w2) => (Panics, w2)
        | (Returns _, w2) =>
            (Returns None,
             {| blder := blder w2; server := server w2;
                trace := trace w2 ++ conversionEvents m (blder w2) |})
        end
    end.

(** The configuration [Complete] settles on. *)
Definition resolvedConfig (b : WebhookBuilder) : option Config :=
  match config b with
  | Some c => Some c
  | None =>
      match mgr b with
      | Some m => GetConfig m
      | None => fst getConfig
      end
  end.

(** A registration step skips on an exact match only: the step leaves the
    world as it is exactly when the mux returns a handler and the matched
    pattern is the path; in every other case, a match of another pattern
    included, it calls [Register] with the handler at the path. *)
Definition ExactMatchOnlySkips (step : M unit) (path : string)
  (hook : Handler) (w : World) : Prop :=
  let r := muxHandler (server w) path in
  (step w = (Returns tt, w) <-> fst r <> None /\ snd r = path)
  /\ (~ (fst r <> None /\ snd r = path) ->
      registrations (trace (snd (step w)))
      = registrations (trace w) ++ [(path, hook)]
      /\ match ServerRegister (server w) path hook with
         | Some s' => fst (step w) = Returns tt /\ server (snd (step w)) = s'
         | None => fst (step w) = Panics
         end)
  /\ (snd r <> path ->
      registrations (trace (snd (step w)))
      = registrations (trace w) ++ [(path, hook)]).

(** The world once configuration and identity are resolved. *)
Definition resolvedWorld (w : World) (m : Manager) (g : GroupVersionKind)
  : World :=
  {| blder := {| apiType := apiType (blder w); gvk := g; mgr := Some m;
                 config := resolvedConfig (blder w) |};
     server := server w;
     trace := trace w ++ [EvGVKForObject (apiType (blder w)) (GetScheme m)] |}.

(** Kinds of events, to count them in a trace. *)
Definition isAmbientLoad (e : Event) : bool :=
  match e with EvGetConfig => true | _ => false end.

Definition isConversionCheck (e : Event) : bool :=
  match e with EvCheckConvertibility _ _ => true | _ => false end.

Definition isInfoLog (e : Event) : bool :=
  match e with EvLogInfo _ _ _ => true | _ => false end.

Definition isErrorLog (e : Event) : bool :=
  match e with EvLogError _ _ _ => true | _ => false end.

Definition countEvents (p : Event -> bool) (t : list Event) : nat :=
  List.length (List.filter p t).

(** The events of one registration step on the server [s]. *)
Definition stepEvents (msg : string) (g : GroupVersionKind) (path : string)
  (hook : option Handler) (s : Server) : list Event :=
  match hook with
  | Some h =>
      if handledAt s path then []
      else [EvLogInfo msg g path; EvRegister path h]
  | None => []
  end.

(** The step calls [Register] and [Register] panics. *)
Definition stepPanics (path : string) (hook : option Handler) (s : Server)
  : bool :=
  match hook with
  | Some h =>
      if handledAt s path then false
      else negb (isSome (ServerRegister s path h))
  | None => false
  end.

(** [WebhookManagedBy(m).For(t1). ... .For(tn)] *)
Definition builderOf (m : option Manager) (ts : list (option Object))
  : WebhookBuilder :=
  List.fold_left For ts (WebhookManagedBy m).
End BuilderWords.

(** ** A reference host

    Objects carry their identity and capabilities; the server is the table
    of an [http.ServeMux]: an exact match wins, then the longest registered
    pattern ending in a slash that is a prefix of the path, and the
    not-found handler with the empty pattern otherwise.  [Register] panics
    on a path that is in the table. *)

Record RefObject := {
  knownAs : option GroupVersionKind;
  defaulting : option (option nat);
  validating : option (option nat);
  convertible : bool
}.

Fixpoint muxExact (t : list (string * nat)) (path : string) : option nat :=
  match t with
  | [] => None
  | (p, h) :: t' => if (p =? path) then Some h else muxExact t' path
  end.

Definition endsInSlash (p : string) : bool :=
  match String.get (String.length p - 1) p with
  | Some c => Ascii.eqb c "/"
  | None => false
  end.

Fixpoint muxLongest (t : list (string * nat)) (path : string)
  : option (string * nat) :=
  match t with
  | [] => None
  | (p, h) :: t' =>
      let rest := muxLongest t' path in
      if endsInSlash p && prefix p path then
        match rest with
        | Some (p', h') =>
            if (String.length p' <? String.length p)%nat then Some (p, h) else rest
        | None => Some (p, h)
        end
      else rest
  end.

Definition notFoundHandler : nat := 0.

Definition refMuxHandler (t : list (string * nat)) (path : string)
  : option nat * string :=
  match muxExact t path with
  | Some h => (Some h, path)
  | None =>
      match muxLongest t path with
      | Some (p, h) => (Some h, p)
      | None => (Some notFoundHandler, "")
      end
  end.

Definition refRegister (t : list (string * nat)) (path : string) (h : nat)
  : option (list (string * nat)) :=
  match muxExact t path with
  | Some _ => None
  | None => Some ((path, h) :: t)
  end.

Definition refHost (ambient : option string * option string) : Host :=
  {| Object := RefObject;
     Scheme := unit;
     Config := string;
     GoError := string;
     Handler := nat;
     HTTPHandler := nat;
     Server := list (string * nat);
     getConfig := ambient;
     GVKForObject := fun o _ =>
       match o with
       | Some {| knownAs := Some g |} => (g, None)
       | _ => ({| Group := ""; Version := ""; Kind := "" |},
               Some "no kind is registered for the type")
       end;
     CheckConvertibility := fun _ o =>
       match o with
       | Some x => if convertible x then None else Some "not convertible"
       | None => Some "not convertible"
       end;
     implementsDefaulter := fun o => isSome (defaulting o);
     implementsValidator := fun o => isSome (validating o);
     DefaultingWebhookFor := fun o =>
       match defaulting o with Some h => h | None => None end;
     ValidatingWebhookFor := fun o =>
       match validating o with Some h => h | None => None end;
     muxHandler := refMuxHandler;
     ServerRegister := refRegister |}.

Definition widgetGVK : GroupVersionKind :=
  {| Group := "apps.example.com"; Version := "v1"; Kind := "Widget" |}.

(** A type with both capabilities that fails the conversion check. *)
Definition widget : RefObject :=
  {| knownAs := Some widgetGVK; defaulting := Some (Some 1);
     validating := Some (Some 2); convertible := false |}.

Definition refManager (a : option string * option string)
  : @Manager (refHost a) :=
  @Build_Manager (refHost a) (Some "manager config") tt.

Definition refWorld (a : option string * option string)
  (b : @WebhookBuilder (refHost a)) (t : list (string * nat))
  : @World (refHost a) :=
  @Build_World (refHost a) b t [].

Definition noAmbient : option string * option string :=
  (None, Some "no configuration found").

Definition withAmbient : option string * option string :=
  (Some "ambient config", None).

(** A type the scheme does not know. *)
Definition stranger : RefObject :=
  {| knownAs := None; defaulting := Some (Some 1);
     validating := Some (Some 2); convertible := true |}.

(** A builder for [t] bound to the reference manager, on a server whose mux
    has one subtree pattern, ["/"], which matches every path as a prefix. *)
Definition boundWorld (a : option string * option string) (t : RefObject)
  : @World (refHost a) :=
  refWorld (@For (refHost a) (WebhookManagedBy (Some (refManager a))) (Some t))
    [("/", 7)].

(** A builder for [widget] without a manager and without a config. *)
Definition unboundWorld (a : option string * option string)
  : @World (refHost a) :=
  refWorld (@For (refHost a) (WebhookManagedBy None) (Some widget)) [].

(** The reference host with a server whose [Register] panics on the paths
    that [deny] selects. *)
Definition panickyHost (deny : string -> bool) : Host :=
  {| Object := RefObject;
     Scheme := unit;
     Config := string;
     GoError := string;
     Handler := nat;
     HTTPHandler := nat;
     Server := list (string * nat);
     getConfig := noAmbient;
     GVKForObject := @GVKForObject (refHost noAmbient);
     CheckConvertibility := @CheckConvertibility (refHost noAmbient);
     implementsDefaulter := @implementsDefaulter (refHost noAmbient);
     implementsValidator := @implementsValidator (refHost noAmbient);
     DefaultingWebhookFor := @DefaultingWebhookFor (refHost noAmbient);
     ValidatingWebhookFor := @ValidatingWebhookFor (refHost noAmbient);
     muxHandler := refMuxHandler;
     ServerRegister := fun t path h =>
       if deny path then None else refRegister t path h |}.

(** A builder for [widget] bound to a manager, on an empty server of a
    panicky host. *)
Definition panickyWorld (deny : string -> bool) : @World (panickyHost deny) :=
  @Build_World (panickyHost deny)
    (@For (panickyHost deny)
       (WebhookManagedBy (Some (@Build_Manager (panickyHost deny)
                                  (Some "manager config") tt)))
       (Some widget))
    [] [].

(** A builder for [widget] with a config set and no manager. *)
Definition explicitWorld : @World (refHost withAmbient) :=
  @Build_World (refHost withAmbient)
    (@Build_WebhookBuilder (refHost withAmbient) (Some widget)
       {| Group := ""; Version := ""; Kind := "" |} None
       (Some "explicit config"))
    [] [].

(** A builder for [widget] on a server that handles the mutate path. *)
Definition halfHandledWorld : @World (refHost noAmbient) :=
  @Build_World (refHost noAmbient)
    (@For (refHost noAmbient)
       (WebhookManagedBy (Some (refManager noAmbient))) (Some widget))
    [("/mutate-apps-example-com-v1-widget", 9)] [].

(** A type with both capabilities that passes the conversion check. *)
Definition gadget : RefObject :=
  {| knownAs := Some widgetGVK; defaulting := Some (Some 1);
     validating := Some (Some 2); convertible := true |}.

(** * Properties *)

(** ** Strings *)

Lemma append_assoc (a b c : string) : (a ++ b) ++ c = a ++ (b ++ c).
Proof. induction a as [|x a IH]; simpl; [reflexivity | now rewrite IH]. Qed.

Lemma append_inv_head (a b c : string) : a ++ b = a ++ c -> b = c.
Proof.
  induction a as [|x a IH]; simpl; intros E; [exact E|].
  injection E as E. now apply IH.
Qed.

Lemma prefix_empty (s : string) : prefix "" s = true.
Proof. now destruct s. Qed.

Lemma get_mapBytes (f : ascii -> ascii) (s : string) (i : nat) :
  String.get i (mapBytes f s) = option_map f (String.get i s).
Proof.
  revert i; induction s as [|c s IH]; intros i; simpl; [reflexivity|].
  destruct i; simpl; [reflexivity | apply IH].
Qed.

Lemma length_mapBytes (f : ascii -> ascii) (s : string) :
  String.length (mapBytes f s) = String.length s.
Proof. induction s as [|c s IH]; simpl; [reflexivity | now rewrite IH]. Qed.

(** The loop of [Replace] on the pattern ["."], with no bound on the number
    of replacements, maps every byte on its own. *)
Lemma replaceLoop_dot (s : string) (n : Z) :
  (n < 0)%Z -> replaceLoop "." "-" n 0 s = dotsReplacedByDashes s.
Proof.
  revert n; induction s as [|c s IH]; intros n Hn; [reflexivity|].
  cbn [replaceLoop dotsReplacedByDashes mapBytes].
  replace (n =? 0)%Z with false by (symmetry; apply Z.eqb_neq; lia).
  cbn [negb andb prefix]. rewrite prefix_empty.
  unfold dotToDash at 1.
  destruct (ascii_dec "." c) as [<-|Hc].
  - cbn. f_equal. apply IH. lia.
  - replace (Ascii.eqb c ".") with false.
    + f_equal. now apply IH.
    + symmetry. apply Ascii.eqb_neq. congruence.
Qed.

Lemma Replace_dots `{GoStrings} (s : string) :
  Replace s "." "-" (-1) = dotsReplacedByDashes s.
Proof. unfold Replace. cbn. now apply replaceLoop_dot. Qed.

Lemma mapBytes_fixed (f : ascii -> ascii) (p : ascii -> bool) (s : string) :
  (forall c, p c = false -> f c = c) -> anyByte p s = false -> mapBytes f s = s.
Proof.
  intros Hf; induction s as [|c s IH]; simpl; [reflexivity|].
  intros E. apply orb_false_iff in E as [Ec Es].
  now rewrite (Hf c Ec), IH.
Qed.

(** On an ASCII string [ToLower] lowers every byte on its own. *)
Lemma ToLower_ascii `{GoStrings} (s : string) :
  allBytes isASCIIByte s = true -> ToLower s = mapBytes lowerByte s.
Proof.
  intros E. unfold ToLower. rewrite E.
  destruct (anyByte isUpperByte s) eqn:U; [reflexivity|].
  symmetry. apply mapBytes_fixed with (p := isUpperByte); [|exact U].
  intros c Hc. unfold lowerByte. now rewrite Hc.
Qed.

Lemma dashFree_append_dash (a b : string) :
  dashFree (a ++ String "-" b) = false.
Proof.
  induction a as [|c a IH]; [reflexivity|].
  cbn [append dashFree allBytes]. fold (dashFree (a ++ String "-" b)).
  rewrite IH. apply andb_false_r.
Qed.

(** A string is cut at its last dash in one way only. *)
Lemma split_last_dash (a a' b b' : string) :
  dashFree b = true -> dashFree b' = true ->
  a ++ String "-" b = a' ++ String "-" b' -> a = a' /\ b = b'.
Proof.
  intros Hb Hb'. revert a'.
  induction a as [|c a IH]; intros [|c' a']; cbn [append]; intros E.
  - injection E as E. now split.
  - injection E as E1 E2. subst.
    now rewrite dashFree_append_dash in Hb.
  - injection E as E1 E2. subst.
    now rewrite dashFree_append_dash in Hb'.
  - injection E as E1 E2. destruct (IH _ E2) as [-> ->]. now subst.
Qed.

Lemma dotsReplaced_inj (a b : string) :
  dashFree a = true -> dashFree b = true ->
  dotsReplacedByDashes a = dotsReplacedByDashes b -> a = b.
Proof.
  revert b; induction a as [|c a IH]; intros [|d b]; cbn; try discriminate;
    [reflexivity|].
  intros Ha Hb E.
  apply andb_true_iff in Ha as [Hc Ha], Hb as [Hd Hb].
  injection E as E1 E2. f_equal; [|now apply IH].
  unfold dotToDash, notDash in *.
  destruct (Ascii.eqb c ".") eqn:Ec, (Ascii.eqb d ".") eqn:Ed.
  - apply Ascii.eqb_eq in Ec, Ed. congruence.
  - subst d. now rewrite Ascii.eqb_refl in Hd.
  - subst c. now rewrite Ascii.eqb_refl in Hc.
  - exact E1.
Qed.

Lemma notDash_lowerByte (c : ascii) :
  notDash c = true -> notDash (lowerByte c) = true.
Proof.
  destruct c as [[] [] [] [] [] [] [] []]; vm_compute; intros E;
    first [reflexivity | discriminate E].
Qed.

Lemma dashFree_mapBytes_lower (s : string) :
  dashFree s = true -> dashFree (mapBytes lowerByte s) = true.
Proof.
  induction s as [|c s IH]; cbn; [reflexivity|].
  intros E. apply andb_true_iff in E as [Hc Hs].
  apply andb_true_iff. split; [now apply notDash_lowerByte | now apply IH].
Qed.

(** ** The path naming scheme *)

Section PathProperties.
Context `{GoStrings}.

Lemma generateMutatePath_eq (g : GroupVersionKind) :
  generateMutatePath g =
  "/mutate-" ++ dotsReplacedByDashes (Group g) ++ "-" ++ Version g ++ "-"
    ++ ToLower (Kind g).
Proof. unfold generateMutatePath. now rewrite Replace_dots. Qed.

Lemma generateValidatePath_eq (g : GroupVersionKind) :
  generateValidatePath g =
  "/validate-" ++ dotsReplacedByDashes (Group g) ++ "-" ++ Version g ++ "-"
    ++ ToLower (Kind g).
Proof. unfold generateValidatePath. now rewrite Replace_dots. Qed.

Lemma paths_distinct (g g' : GroupVersionKind) :
  generateMutatePath g <> generateValidatePath g'.
Proof. unfold generateMutatePath, generateValidatePath. cbn. discriminate. Qed.

(** The part of a path after its prefix determines a dash-free identity up
    to the letter case of the kind. *)
Lemma path_tail_inj (a b : GroupVersionKind) :
  DashFreeIdentity a = true -> DashFreeIdentity b = true ->
  dotsReplacedByDashes (Group a) ++ "-" ++ Version a ++ "-" ++ ToLower (Kind a)
  = dotsReplacedByDashes (Group b) ++ "-" ++ Version b ++ "-" ++ ToLower (Kind b) ->
  Group a = Group b /\ Version a = Version b
  /\ ToLower (Kind a) = ToLower (Kind b).
Proof.
  unfold DashFreeIdentity. intros Ha Hb E.
  repeat (apply andb_true_iff in Ha as [Ha ?]).
  repeat (apply andb_true_iff in Hb as [Hb ?]).
  assert (Ka : dashFree (ToLower (Kind a)) = true)
    by (rewrite ToLower_ascii by assumption; now apply dashFree_mapBytes_lower).
  assert (Kb : dashFree (ToLower (Kind b)) = true)
    by (rewrite ToLower_ascii by assumption; now apply dashFree_mapBytes_lower).
  change (?x ++ "-" ++ ?y ++ "-" ++ ?z)
    with (x ++ String "-" (y ++ String "-" z)) in E.
  assert (E' : (dotsReplacedByDashes (Group a) ++ String "-" (Version a))
                 ++ String "-" (ToLower (Kind a))
               = (dotsReplacedByDashes (Group b) ++ String "-" (Version b))
                 ++ String "-" (ToLower (Kind b))).
  { rewrite !append_assoc. exact E. }
  apply split_last_dash in E' as [E1 E2]; [|assumption..].
  apply split_last_dash in E1 as [E0 E1]; [|assumption..].
  apply dotsReplaced_inj in E0; [|assumption..].
  now repeat split.
Qed.
End PathProperties.

(** C1: the mutating path of an identity is ["/mutate-"], the group with
    every dot replaced by a dash, a dash, the version as it is, a dash, and
    the kind lowercased; the validating path differs in its prefix
    ["/validate-"] only.  The replacement reaches every byte of the group,
    byte by byte, and nothing outside the group; lowercasing is that of
    [strings.ToLower], byte by byte on an ASCII kind. *)
Theorem C1_path_scheme `{GoStrings} (g : GroupVersionKind) :
  generateMutatePath g
  = "/mutate-" ++ dotsReplacedByDashes (Group g) ++ "-" ++ Version g ++ "-"
      ++ ToLower (Kind g)
  /\ generateValidatePath g
     = "/validate-" ++ dotsReplacedByDashes (Group g) ++ "-" ++ Version g ++ "-"
         ++ ToLower (Kind g)
  /\ String.length (dotsReplacedByDashes (Group g)) = String.length (Group g)
  /\ (forall i,
        String.get i (dotsReplacedByDashes (Group g))
        = option_map (fun c => if Ascii.eqb c "." then "-"%char else c)
            (String.get i (Group g)))
  /\ ToLower (Kind g)
     = (if allBytes isASCIIByte (Kind g) then mapBytes lowerByte (Kind g)
        else mapUnicodeToLower (Kind g)).
Proof.
  split; [apply generateMutatePath_eq|].
  split; [apply generateValidatePath_eq|].
  split; [apply length_mapBytes|].
  split; [intros i; apply get_mapBytes|].
  destruct (allBytes isASCIIByte (Kind g)) eqn:E.
  - now apply ToLower_ascii.
  - unfold ToLower. now rewrite E.
Qed.

(** C7: the mutate path and the validate path of an identity differ, and
    each depends on the group, the version and the kind only: identities
    with the same three components have the same paths. *)
Theorem C7_distinct_and_deterministic `{GoStrings} :
  (forall g, generateMutatePath g <> generateValidatePath g)
  /\ (forall a b,
        Group a = Group b -> Version a = Version b -> Kind a = Kind b ->
        generateMutatePath a = generateMutatePath b
        /\ generateValidatePath a = generateValidatePath b).
Proof.
  split.
  - intros g. apply paths_distinct.
  - intros a b Eg Ev Ek. unfold generateMutatePath, generateValidatePath.
    now rewrite Eg, Ev, Ek.
Qed.

Lemma C7_distinct_and_deterministic_witness :
  @generateMutatePath asciiOnlyStrings widgetGVK
  <> @generateValidatePath asciiOnlyStrings widgetGVK
  /\ @generateMutatePath asciiOnlyStrings widgetGVK
     = @generateMutatePath asciiOnlyStrings
         {| Group := "apps.example.com"; Version := "v1"; Kind := "Widget" |}.
Proof.
  destruct (@C7_distinct_and_deterministic asciiOnlyStrings) as [D F].
  split.
  - apply D.
  - apply F; reflexivity.
Defined.

(** C8, as stated, fails: two distinct identities in the Kubernetes style,
    whose groups differ in a dash against a dot, have the same paths. *)
Lemma C8_dash_against_dot_collide :
  let a := {| Group := "cert-manager.io"; Version := "v1"; Kind := "Issuer" |} in
  let b := {| Group := "cert.manager.io"; Version := "v1"; Kind := "Issuer" |} in
  KubernetesStyle a = true /\ KubernetesStyle b = true /\ a <> b
  /\ (forall S : GoStrings,
        @generateMutatePath S a = @generateMutatePath S b
        /\ @generateValidatePath S a = @generateValidatePath S b).
Proof.
  cbv zeta. repeat split; try reflexivity; try discriminate.
Qed.

(** C8, amended: on identities without a dash in group, version and kind and
    with an ASCII kind, equal mutate paths or equal validate paths force
    equal groups, equal versions and kinds that are equal once lowercased;
    and group [apps.example.com], version [v1], kind [Widget] has the paths
    [/mutate-apps-example-com-v1-widget] and
    [/validate-apps-example-com-v1-widget]. *)
Theorem C8_injective_on_dash_free `{GoStrings} :
  (forall a b,
      DashFreeIdentity a = true -> DashFreeIdentity b = true ->
      generateMutatePath a = generateMutatePath b
      \/ generateValidatePath a = generateValidatePath b ->
      Group a = Group b /\ Version a = Version b
      /\ ToLower (Kind a) = ToLower (Kind b))
  /\ generateMutatePath widgetGVK = "/mutate-apps-example-com-v1-widget"
  /\ generateValidatePath widgetGVK = "/validate-apps-example-com-v1-widget".
Proof.
  split; [|split].
  - intros a b Ha Hb [E|E].
    + rewrite !generateMutatePath_eq in E.
      apply append_inv_head in E. now apply path_tail_inj.
    + rewrite !generateValidatePath_eq in E.
      apply append_inv_head in E. now apply path_tail_inj.
  - rewrite generateMutatePath_eq, ToLower_ascii by reflexivity. reflexivity.
  - rewrite generateValidatePath_eq, ToLower_ascii by reflexivity. reflexivity.
Qed.

Lemma C8_injective_on_dash_free_witness :
  let b := {| Group := "apps.example.com"; Version := "v1"; Kind := "WIDGET" |} in
  DashFreeIdentity widgetGVK = true /\ DashFreeIdentity b = true
  /\ @generateMutatePath asciiOnlyStrings widgetGVK
     = @generateMutatePath asciiOnlyStrings b
  /\ @ToLower asciiOnlyStrings (Kind widgetGVK)
     = @ToLower asciiOnlyStrings (Kind b).
Proof.
  cbv zeta.
  split; [reflexivity|]. split; [reflexivity|]. split; [reflexivity|].
  apply (proj1 (@C8_injective_on_dash_free asciiOnlyStrings) widgetGVK
           {| Group := "apps.example.com"; Version := "v1"; Kind := "WIDGET" |});
    [reflexivity | reflexivity | left; reflexivity].
Defined.

(** ** The builder *)

Section BuilderProperties.
Context `{GoStrings} `{Host}.
Local Open Scope list_scope.

Lemma registrations_app (a b : list Event) :
  registrations (a ++ b)%list = (registrations a ++ registrations b)%list.
Proof.
  induction a as [|e a IH]; [reflexivity|].
  destruct e; cbn; now rewrite IH.
Qed.

Lemma lookups_app (a b : list Event) :
  lookups (a ++ b)%list = lookups a + lookups b.
Proof.
  induction a as [|e a IH]; [reflexivity|].
  destruct e; cbn; now rewrite IH.
Qed.

Lemma app_two_neq {A} (l : list A) (x y : A) : ((l ++ [x]) ++ [y])%list <> l.
Proof.
  intros E. apply (f_equal (@List.length A)) in E.
  rewrite !length_app in E. cbn in E. lia.
Qed.

Lemma loadRestConfig_run (w : World) :
  loadRestConfig w =
  match config (blder w) with
  | Some _ => (Returns None, w)
  | None =>
      match mgr (blder w) with
      | Some m =>
          (Returns None,
           {| blder := {| apiType := apiType (blder w); gvk := gvk (blder w);
                          mgr := mgr (blder w); config := GetConfig m |};
              server := server w; trace := trace w |})
      | None =>
          (Returns (snd getConfig),
           {| blder := {| apiType := apiType (blder w); gvk := gvk (blder w);
                          mgr := mgr (blder w); config := fst getConfig |};
              server := server w; trace := trace w ++ [EvGetConfig] |})
      end
  end.
Proof.
  destruct w as [[t g [m|] [c|]] s tr]; reflexivity.
Qed.

Lemma registerDefaultingWebhook_run (w : World) (m : Manager) :
  mgr (blder w) = Some m ->
  registerDefaultingWebhook w =
  registerIfNew "Registering a mutating webhook" (gvk (blder w))
    (generateMutatePath (gvk (blder w)))
    (defaultingHandler (apiType (blder w))) w.
Proof.
  intros Hm.
  unfold registerDefaultingWebhook, registerIfNew, defaultingHandler,
    isAlreadyHandled, registerOnServer, theManager, handledAt,
    bind, getBuilder, getServer, emit, setServer, ret, panic.
  destruct (apiType (blder w)) as [o|]; [|reflexivity].
  destruct (implementsDefaulter o); [|reflexivity].
  destruct (DefaultingWebhookFor o) as [mwh|]; [|reflexivity].
  rewrite Hm. cbn.
  destruct (exactMatch _ _); cbn; [reflexivity|].
  rewrite Hm. cbn.
  destruct (ServerRegister _ _ _); reflexivity.
Qed.

Lemma registerValidatingWebhook_run (w : World) (m : Manager) :
  mgr (blder w) = Some m ->
  registerValidatingWebhook w =
  registerIfNew "Registering a validating webhook" (gvk (blder w))
    (generateValidatePath (gvk (blder w)))
    (validatingHandler (apiType (blder w))) w.
Proof.
  intros Hm.
  unfold registerValidatingWebhook, registerIfNew, validatingHandler,
    isAlreadyHandled, registerOnServer, theManager, handledAt,
    bind, getBuilder, getServer, emit, setServer, ret, panic.
  destruct (apiType (blder w)) as [o|]; [|reflexivity].
  destruct (implementsValidator o); [|reflexivity].
  destruct (ValidatingWebhookFor o) as [vwh|]; [|reflexivity].
  rewrite Hm. cbn.
  destruct (exactMatch _ _); cbn; [reflexivity|].
  rewrite Hm. cbn.
  destruct (ServerRegister _ _ _); reflexivity.
Qed.

(** What a registration step leaves behind. *)
Lemma registerIfNew_spec msg g path hook (w : World) :
  blder (snd (registerIfNew msg g path hook w)) = blder w
  /\ registrations (trace (snd (registerIfNew msg g path hook w)))
     = (registrations (trace w) ++ due (server w) path hook)%list
  /\ lookups (trace (snd (registerIfNew msg g path hook w))) = lookups (trace w)
  /\ (fst (registerIfNew msg g path hook w) = Returns tt ->
      server (snd (registerIfNew msg g path hook w))
      = afterDue (server w) path hook)
  /\ (fst (registerIfNew msg g path hook w) = Panics ->
      exists h, hook = Some h /\ handledAt (server w) path = false
                /\ ServerRegister (server w) path h = None).
Proof.
  unfold registerIfNew, due, afterDue.
  destruct hook as [h|]; cbn.
  2:{ rewrite app_nil_r. repeat split; try reflexivity. discriminate. }
  destruct (handledAt (server w) path) eqn:Eh; cbn.
  { rewrite app_nil_r. repeat split; try reflexivity. discriminate. }
  destruct (ServerRegister (server w) path h) eqn:Er; cbn;
    rewrite !registrations_app, !lookups_app; cbn;
    rewrite ?app_nil_r, ?Nat.add_0_r.
  - split; [reflexivity|]. split; [reflexivity|]. split; [reflexivity|].
    split; [reflexivity | discriminate].
  - split; [reflexivity|]. split; [reflexivity|]. split; [reflexivity|].
    split; [discriminate|]. intros _. now exists h.
Qed.

Ltac run_cbn :=
  cbn -[registerDefaultingWebhook registerValidatingWebhook registerIfNew
        generateMutatePath generateValidatePath].

Lemma registerWebhooks_run t g0 (m : Manager) c s tr :
  registerWebhooks
    {| blder := {| apiType := t; gvk := g0; mgr := Some m; config := c |};
       server := s; trace := tr |}
  = match snd (GVKForObject t (GetScheme m)) with
    | Some e =>
        (Returns (Some e),
         {| blder := {| apiType := t; gvk := fst (GVKForObject t (GetScheme m));
                        mgr := Some m; config := c |};
            server := s; trace := tr ++ [EvGVKForObject t (GetScheme m)] |})
    | None =>
        completeResolved m (fst (GVKForObject t (GetScheme m)))
          {| blder := {| apiType := t; gvk := fst (GVKForObject t (GetScheme m));
                         mgr := Some m; config := c |};
             server := s; trace := tr ++ [EvGVKForObject t (GetScheme m)] |}
    end.
Proof.
  destruct (GVKForObject t (GetScheme m)) as [g [e|]] eqn:Eg;
    unfold registerWebhooks, completeResolved, bind;
    run_cbn; rewrite Eg; run_cbn; [reflexivity|].
  erewrite registerDefaultingWebhook_run with (m := m) by reflexivity.
  run_cbn.
  match goal with |- context [registerIfNew ?a ?b ?c ?d ?e] =>
    pose proof (registerIfNew_spec a b c d e) as [Hb _];
    destruct (registerIfNew a b c d e) as [[[]|] w1] eqn:E1
  end; [|reflexivity].
  cbn in Hb.
  assert (Hm1 : mgr (blder w1) = Some m) by now rewrite Hb.
  erewrite registerValidatingWebhook_run with (m := m) by exact Hm1.
  rewrite Hb. run_cbn.
  match goal with |- context [registerIfNew ?a ?b ?c ?d ?e] =>
    pose proof (registerIfNew_spec a b c d e) as [Hb2 _];
    destruct (registerIfNew a b c d e) as [[[]|] w2] eqn:E2
  end; [|reflexivity].
  rewrite Hb in Hb2. destruct w2 as [b2 s2 t2]. cbn in Hb2. subst b2.
  unfold conversionEvents, emit, ret. cbn.
  destruct (CheckConvertibility (GetScheme m) t); cbn.
  - now rewrite <- app_assoc.
  - reflexivity.
Qed.

Lemma Complete_run (w : World) (m : Manager) :
  mgr (blder w) = Some m ->
  Complete w =
  match snd (GVKForObject (apiType (blder w)) (GetScheme m)) with
  | Some e =>
      (Returns (Some e),
       resolvedWorld w m (fst (GVKForObject (apiType (blder w)) (GetScheme m))))
  | None =>
      completeResolved m (fst (GVKForObject (apiType (blder w)) (GetScheme m)))
        (resolvedWorld w m (fst (GVKForObject (apiType (blder w)) (GetScheme m))))
  end.
Proof.
  intros Hm. destruct w as [[t g0 mg c] s tr]. cbn in Hm. subst mg.
  unfold Complete, bind. rewrite loadRestConfig_run.
  unfold resolvedWorld, resolvedConfig.
  cbn [blder config mgr apiType gvk server trace].
  destruct c; rewrite registerWebhooks_run; reflexivity.
Qed.


(** C3: on a builder bound to a manager whose scheme does not know the
    target type, [Complete] returns the error of the registry lookup and
    registers no handler: no call of [Register], the server untouched. *)
Theorem C3_unknown_type (w : World) (m : Manager) (g : GroupVersionKind)
  (e : GoError) :
  mgr (blder w) = Some m ->
  GVKForObject (apiType (blder w)) (GetScheme m) = (g, Some e) ->
  fst (Complete w) = Returns (Some e)
  /\ registrations (trace (snd (Complete w))) = registrations (trace w)
  /\ server (snd (Complete w)) = server w.
Proof.
  intros Hm Hg. rewrite (Complete_run w Hm), Hg. cbn.
  rewrite registrations_app. cbn. now rewrite app_nil_r.
Qed.

Lemma Complete_nil_manager (w : World) :
  mgr (blder w) = None -> fst (Complete w) <> Returns None.
Proof.
  intros Hm. destruct w as [[t g mg c] s tr]. cbn in Hm. subst mg.
  unfold Complete, bind. rewrite loadRestConfig_run. cbn.
  destruct c as [c|]; cbn; [discriminate|].
  destruct (snd getConfig); cbn; discriminate.
Qed.

(** Success of [Complete] requires a bound manager. *)
Lemma Complete_success_manager (w w' : World) :
  Complete w = (Returns None, w') -> exists m, mgr (blder w) = Some m.
Proof.
  intros E. destruct (mgr (blder w)) as [m|] eqn:Hm; [now exists m|].
  pose proof (Complete_nil_manager w Hm) as N. rewrite E in N. now elim N.
Qed.

(** C9: with no config set, no manager bound and a successful ambient
    loader, [Complete] does not return success: the loaded config is
    stored and the call then panics on the nil manager, before any
    registry lookup and any registration.  A call of [Complete] that
    returns success was made on a builder with a bound manager. *)
Theorem C9_nil_manager (w : World) :
  (config (blder w) = None -> mgr (blder w) = None -> snd getConfig = None ->
   Complete w
   = (Panics,
      {| blder := {| apiType := apiType (blder w); gvk := gvk (blder w);
                     mgr := None; config := fst getConfig |};
         server := server w; trace := trace w ++ [EvGetConfig] |})
   /\ lookups (trace (snd (Complete w))) = lookups (trace w)
   /\ registrations (trace (snd (Complete w))) = registrations (trace w))
  /\ (fst (Complete w) = Returns None -> exists m, mgr (blder w) = Some m).
Proof.
  split.
  - intros Hc Hm He.
    assert (E : Complete w
                = (Panics,
                   {| blder := {| apiType := apiType (blder w);
                                  gvk := gvk (blder w);
                                  mgr := None; config := fst getConfig |};
                      server := server w; trace := trace w ++ [EvGetConfig] |})).
    { destruct w as [[t g mg c] s tr]. cbn in Hc, Hm. subst mg c.
      unfold Complete, bind. rewrite loadRestConfig_run. cbn.
      now rewrite He. }
    rewrite E. cbn. rewrite lookups_app, registrations_app. cbn.
    now rewrite Nat.add_0_r, app_nil_r.
  - intros E. destruct (Complete w) as [o w'] eqn:EC. cbn in E. subst o.
    now apply Complete_success_manager in EC.
Qed.

Lemma handledAt_iff (s : Server) (path : string) :
  handledAt s path = true
  <-> fst (muxHandler s path) <> None /\ snd (muxHandler s path) = path.
Proof.
  unfold handledAt, exactMatch.
  destruct (muxHandler s path) as [[h|] p]; cbn.
  - rewrite andb_true_r, String.eqb_eq. split; [now split | now intros [_ E]].
  - rewrite andb_false_r. split; [discriminate | now intros [N _]].
Qed.

Lemma registerIfNew_exact msg g path (h : Handler) (w : World) :
  ExactMatchOnlySkips (registerIfNew msg g path (Some h)) path h w.
Proof.
  assert (R : handledAt (server w) path = false ->
              registrations (trace (snd (registerIfNew msg g path (Some h) w)))
              = (registrations (trace w) ++ [(path, h)])%list
              /\ match ServerRegister (server w) path h with
                 | Some s' =>
                     fst (registerIfNew msg g path (Some h) w) = Returns tt
                     /\ server (snd (registerIfNew msg g path (Some h) w)) = s'
                 | None => fst (registerIfNew msg g path (Some h) w) = Panics
                 end).
  { intros Eh. unfold registerIfNew. rewrite Eh.
    destruct (ServerRegister (server w) path h); cbn;
      rewrite !registrations_app; cbn; rewrite app_nil_r; now split. }
  unfold ExactMatchOnlySkips. cbv zeta. rewrite <- handledAt_iff.
  split; [|split].
  - unfold registerIfNew.
    destruct (handledAt (server w) path); [now split|].
    split; [|discriminate].
    destruct (ServerRegister (server w) path h); intros E;
      injection E as E; try discriminate.
    destruct w as [b0 s0 t0]. cbn in E. injection E as _ E.
    now apply app_two_neq in E.
  - intros N. apply R. now destruct (handledAt (server w) path).
  - intros N. apply R.
    destruct (handledAt (server w) path) eqn:Eh; [|reflexivity].
    apply handledAt_iff in Eh as [_ Eh]. now elim N.
Qed.

(** C5: a registration step, mutating or validating, is skipped, with the
    world left as it is and no error, exactly when the mux returns a
    non-nil handler for the computed path and the matched pattern equals
    that path; when this test is negative, also when the mux matched
    another pattern such as a prefix, the handler is registered at the
    path. *)
Theorem C5_skip_iff_exact_match (w : World) (m : Manager) :
  mgr (blder w) = Some m ->
  (forall mwh,
      defaultingHandler (apiType (blder w)) = Some mwh ->
      ExactMatchOnlySkips registerDefaultingWebhook
        (generateMutatePath (gvk (blder w))) mwh w)
  /\ (forall vwh,
        validatingHandler (apiType (blder w)) = Some vwh ->
        ExactMatchOnlySkips registerValidatingWebhook
          (generateValidatePath (gvk (blder w))) vwh w).
Proof.
  intros Hm. split.
  - intros mwh Hh. unfold ExactMatchOnlySkips.
    rewrite (registerDefaultingWebhook_run w Hm), Hh.
    apply registerIfNew_exact.
  - intros vwh Hh. unfold ExactMatchOnlySkips.
    rewrite (registerValidatingWebhook_run w Hm), Hh.
    apply registerIfNew_exact.
Qed.

(** [Complete] on a bound manager and a resolved identity, when no call of
    [Register] panics. *)
Lemma Complete_success_spec (w : World) (m : Manager) (g : GroupVersionKind) :
  mgr (blder w) = Some m ->
  GVKForObject (apiType (blder w)) (GetScheme m) = (g, None) ->
  let dh := defaultingHandler (apiType (blder w)) in
  let vh := validatingHandler (apiType (blder w)) in
  let s1 := afterDue (server w) (generateMutatePath g) dh in
  (forall h, dh = Some h -> handledAt (server w) (generateMutatePath g) = false ->
             ServerRegister (server w) (generateMutatePath g) h <> None) ->
  (forall h, vh = Some h -> handledAt s1 (generateValidatePath g) = false ->
             ServerRegister s1 (generateValidatePath g) h <> None) ->
  fst (Complete w) = Returns None
  /\ blder (snd (Complete w)) = blder (resolvedWorld w m g)
  /\ server (snd (Complete w)) = afterDue s1 (generateValidatePath g) vh
  /\ registrations (trace (snd (Complete w)))
     = registrations (trace w) ++ due (server w) (generateMutatePath g) dh
         ++ due s1 (generateValidatePath g) vh
  /\ exists t, trace (snd (Complete w))
               = t ++ conversionEvents m (blder (resolvedWorld w m g)).
Proof.
  intros Hm Hg dh vh s1 Rd Rv.
  rewrite (Complete_run w Hm), Hg.
  cbn [fst snd]. unfold completeResolved.
  cbn [resolvedWorld blder apiType]. fold dh vh.
  match goal with |- context [registerIfNew ?a ?b ?c ?d ?e] =>
    pose proof (registerIfNew_spec a b c d e) as (B1 & G1 & _ & S1 & P1);
    destruct (registerIfNew a b c d e) as [[[]|] w1]
  end; cbn [fst snd] in *.
  2:{ destruct (P1 eq_refl) as (h & Eh & Nh & Ph). now elim (Rd h). }
  specialize (S1 eq_refl). cbn [server blder trace] in B1, G1, S1.
  rewrite B1. cbn [apiType]. fold vh. fold s1 in S1.
  match goal with |- context [registerIfNew ?a ?b ?c ?d ?e] =>
    pose proof (registerIfNew_spec a b c d e) as (B2 & G2 & _ & S2 & P2);
    destruct (registerIfNew a b c d e) as [[[]|] w2]
  end; cbn [fst snd] in *.
  2:{ destruct (P2 eq_refl) as (h & Eh & Nh & Ph). rewrite S1 in Nh, Ph.
      now elim (Rv h). }
  specialize (S2 eq_refl). rewrite S1 in S2, G2.
  cbn [blder server trace].
  split; [reflexivity|]. split; [now rewrite B2, B1|]. split; [exact S2|].
  split.
  - rewrite registrations_app, G2, G1.
    unfold resolvedWorld, conversionEvents. cbn [trace server blder apiType].
    rewrite registrations_app.
    destruct (CheckConvertibility _ _); cbn [registrations];
      now rewrite !app_nil_r, <- app_assoc.
  - exists (trace w2). now rewrite B2, B1.
Qed.

(** C4: on a bound manager and a resolved identity, with a server whose
    [Register] returns on the two paths when they are not handled yet, a
    failing conversion check leaves the result of [Complete] as it is
    without the failure: [Complete] returns nil, every handler that is
    due is registered, and the failure shows as the last log line only. *)
Theorem C4_conversion_failure_not_fatal (w : World) (m : Manager)
  (g : GroupVersionKind) (e : GoError) :
  mgr (blder w) = Some m ->
  GVKForObject (apiType (blder w)) (GetScheme m) = (g, None) ->
  RegisterReturnsAt (generateMutatePath g) ->
  RegisterReturnsAt (generateValidatePath g) ->
  CheckConvertibility (GetScheme m) (apiType (blder w)) = Some e ->
  let dh := defaultingHandler (apiType (blder w)) in
  let vh := validatingHandler (apiType (blder w)) in
  let s1 := afterDue (server w) (generateMutatePath g) dh in
  fst (Complete w) = Returns None
  /\ registrations (trace (snd (Complete w)))
     = registrations (trace w) ++ due (server w) (generateMutatePath g) dh
         ++ due s1 (generateValidatePath g) vh
  /\ server (snd (Complete w)) = afterDue s1 (generateValidatePath g) vh
  /\ exists t, trace (snd (Complete w))
               = t ++ [EvCheckConvertibility (GetScheme m) (apiType (blder w));
                       EvLogError e "conversion check failed" g].
Proof.
  intros Hm Hg Rm Rv Hc dh vh s1.
  destruct (@Complete_success_spec w m g Hm Hg) as (E & _ & S & G & t & T).
  - intros h _ Nh. now apply Rm.
  - intros h _ Nh. now apply Rv.
  - split; [exact E|]. split; [exact G|]. split; [exact S|].
    exists t. rewrite T. unfold conversionEvents. cbn. now rewrite Hc.
Qed.

(** C6: on a bound manager and a resolved identity, registration follows
    the two capability tests, each on its own.  A type with neither
    capability: [Complete] returns nil and registers nothing.  A type with
    the defaulting capability only, on a server where the mutate path is
    free: one registration, at the mutate path, which is not the validate
    path; likewise with the validation capability only and the validate
    path.  A type with both, on a server where both paths are free: two
    registrations, at two distinct paths.  A nil handler from a
    constructor: the step leaves the world as it is and returns. *)
Theorem C6_capability_dispatch (w : World) (m : Manager)
  (g : GroupVersionKind) (o : Object) :
  mgr (blder w) = Some m ->
  GVKForObject (apiType (blder w)) (GetScheme m) = (g, None) ->
  apiType (blder w) = Some o ->
  let mpath := generateMutatePath g in
  let vpath := generateValidatePath g in
  (implementsDefaulter o = false -> implementsValidator o = false ->
   fst (Complete w) = Returns None
   /\ registrations (trace (snd (Complete w))) = registrations (trace w)
   /\ server (snd (Complete w)) = server w)
  /\ (forall mwh s',
        implementsDefaulter o = true -> implementsValidator o = false ->
        DefaultingWebhookFor o = Some mwh ->
        handledAt (server w) mpath = false ->
        ServerRegister (server w) mpath mwh = Some s' ->
        fst (Complete w) = Returns None
        /\ registrations (trace (snd (Complete w)))
           = registrations (trace w) ++ [(mpath, mwh)]
        /\ server (snd (Complete w)) = s'
        /\ mpath <> vpath)
  /\ (forall vwh s',
        implementsDefaulter o = false -> implementsValidator o = true ->
        ValidatingWebhookFor o = Some vwh ->
        handledAt (server w) vpath = false ->
        ServerRegister (server w) vpath vwh = Some s' ->
        fst (Complete w) = Returns None
        /\ registrations (trace (snd (Complete w)))
           = registrations (trace w) ++ [(vpath, vwh)]
        /\ server (snd (Complete w)) = s')
  /\ (forall mwh vwh s1 s2,
        implementsDefaulter o = true -> implementsValidator o = true ->
        DefaultingWebhookFor o = Some mwh ->
        ValidatingWebhookFor o = Some vwh ->
        handledAt (server w) mpath = false ->
        ServerRegister (server w) mpath mwh = Some s1 ->
        handledAt s1 vpath = false ->
        ServerRegister s1 vpath vwh = Some s2 ->
        fst (Complete w) = Returns None
        /\ registrations (trace (snd (Complete w)))
           = registrations (trace w) ++ [(mpath, mwh); (vpath, vwh)]
        /\ server (snd (Complete w)) = s2
        /\ mpath <> vpath)
  /\ (forall w0 : World,
        apiType (blder w0) = Some o ->
        (implementsDefaulter o = true -> DefaultingWebhookFor o = None ->
         registerDefaultingWebhook w0 = (Returns tt, w0))
        /\ (implementsValidator o = true -> ValidatingWebhookFor o = None ->
            registerValidatingWebhook w0 = (Returns tt, w0))).
Proof.
  intros Hm Hg Ho mpath vpath.
  pose proof (@Complete_success_spec w m g Hm Hg) as S.
  cbv zeta in S. rewrite Ho in S. unfold defaultingHandler, validatingHandler in S.
  fold mpath vpath in S.
  split; [|split; [|split; [|split]]].
  - intros Hd Hv. rewrite Hd, Hv in S.
    destruct S as (E & _ & Sv & G & _); try discriminate.
    cbn [afterDue due app] in Sv, G. rewrite app_nil_r in G. now repeat split.
  - intros mwh s' Hd Hv Hh Nh R. rewrite Hd, Hv, Hh in S.
    destruct S as (E & _ & Sv & G & _); try discriminate.
    { intros h Eh _. injection Eh as <-. now rewrite R. }
    cbn [afterDue due app] in Sv, G. rewrite Nh in Sv, G. rewrite R in Sv.
    rewrite app_nil_r in G.
    repeat split; try assumption. apply paths_distinct.
  - intros vwh s' Hd Hv Hh Nh R. rewrite Hd, Hv, Hh in S.
    cbn [afterDue due app] in S.
    destruct S as (E & _ & Sv & G & _); try discriminate.
    { intros h Eh _. injection Eh as <-. now rewrite R. }
    rewrite Nh in Sv, G. rewrite R in Sv.
    now repeat split.
  - intros mwh vwh s1 s2 Hd Hv Hhd Hhv Nd Rd Nv Rv. rewrite Hd, Hv, Hhd, Hhv in S.
    cbn [afterDue due app] in S. rewrite Nd, Rd in S.
    destruct S as (E & _ & Sv & G & _).
    { intros h Eh _. injection Eh as <-. now rewrite Rd. }
    { intros h Eh _. injection Eh as <-. now rewrite Rv. }
    rewrite Nv in Sv, G. rewrite Rv in Sv.
    repeat split; try assumption. apply paths_distinct.
  - intros w0 Ho0. split.
    + intros Hd Hn. unfold registerDefaultingWebhook, bind, getBuilder.
      now rewrite Ho0, Hd, Hn.
    + intros Hv Hn. unfold registerValidatingWebhook, bind, getBuilder.
      now rewrite Ho0, Hv, Hn.
Qed.




End BuilderProperties.

(** ** The reference host meets the server contract *)

Section ReferenceServer.
Variable a : option string * option string.


Lemma ref_exact_handled (t : list (string * nat)) (p : string) :
  muxExact t p <> None -> @handledAt (refHost a) t p = true.
Proof.
  unfold handledAt, exactMatch. cbn. unfold refMuxHandler.
  destruct (muxExact t p); [|now intros N].
  intros _. cbn. now rewrite String.eqb_refl.
Qed.



Lemma ref_register_returns (p : string) : @RegisterReturnsAt (refHost a) p.
Proof.
  intros t hook Nh. cbn. unfold refRegister.
  destruct (muxExact t p) as [h|] eqn:Ex; [|discriminate].
  rewrite ref_exact_handled in Nh; [discriminate Nh|]. now rewrite Ex.
Qed.


End ReferenceServer.

(** ** The theorems at work on the reference host *)


Lemma C3_unknown_type_witness :
  fst (@Complete asciiOnlyStrings (refHost noAmbient) (boundWorld noAmbient stranger))
  = Returns (Some "no kind is registered for the type")
  /\ registrations (trace (snd (@Complete asciiOnlyStrings (refHost noAmbient)
                                  (boundWorld noAmbient stranger)))) = []
  /\ server (snd (@Complete asciiOnlyStrings (refHost noAmbient)
                    (boundWorld noAmbient stranger))) = [("/", 7)].
Proof.
  exact (@C3_unknown_type asciiOnlyStrings (refHost noAmbient)
           (boundWorld noAmbient stranger) (refManager noAmbient)
           {| Group := ""; Version := ""; Kind := "" |}
           "no kind is registered for the type" eq_refl eq_refl).
Defined.

Lemma C4_conversion_failure_not_fatal_witness :
  @CheckConvertibility (refHost noAmbient) tt (Some widget) = Some "not convertible"
  /\ fst (@Complete asciiOnlyStrings (refHost noAmbient) (boundWorld noAmbient widget))
     = Returns None
  /\ registrations (trace (snd (@Complete asciiOnlyStrings (refHost noAmbient)
                                  (boundWorld noAmbient widget))))
     = [("/mutate-apps-example-com-v1-widget", 1);
        ("/validate-apps-example-com-v1-widget", 2)].
Proof.
  destruct (@C4_conversion_failure_not_fatal asciiOnlyStrings (refHost noAmbient)
              (boundWorld noAmbient widget) (refManager noAmbient) widgetGVK
              "not convertible" eq_refl eq_refl
              (@ref_register_returns noAmbient _)
              (@ref_register_returns noAmbient _) eq_refl) as (E & G & _).
  split; [reflexivity|]. split; [exact E | exact G].
Defined.

Lemma C5_skip_iff_exact_match_witness :
  let w := resolvedWorld (boundWorld noAmbient widget) (refManager noAmbient)
             widgetGVK in
  @muxHandler (refHost noAmbient) (server w) "/mutate-apps-example-com-v1-widget"
  = (Some 7, "/")
  /\ registrations (trace (snd (@registerDefaultingWebhook asciiOnlyStrings
                                  (refHost noAmbient) w)))
     = [("/mutate-apps-example-com-v1-widget", 1)].
Proof.
  cbv zeta. split; [reflexivity|].
  destruct (@C5_skip_iff_exact_match asciiOnlyStrings (refHost noAmbient)
              (resolvedWorld (boundWorld noAmbient widget) (refManager noAmbient)
                 widgetGVK)
              (refManager noAmbient) eq_refl) as [D _].
  destruct (D 1 eq_refl) as (_ & _ & P).
  apply P. discriminate.
Defined.

Lemma C6_capability_dispatch_witness :
  fst (@Complete asciiOnlyStrings (refHost noAmbient) (boundWorld noAmbient widget))
  = Returns None
  /\ registrations (trace (snd (@Complete asciiOnlyStrings (refHost noAmbient)
                                  (boundWorld noAmbient widget))))
     = [("/mutate-apps-example-com-v1-widget", 1);
        ("/validate-apps-example-com-v1-widget", 2)].
Proof.
  destruct (@C6_capability_dispatch asciiOnlyStrings (refHost noAmbient)
              (boundWorld noAmbient widget) (refManager noAmbient) widgetGVK
              widget eq_refl eq_refl eq_refl) as (_ & _ & _ & Both & _).
  destruct (Both 1 2 _ _ eq_refl eq_refl eq_refl eq_refl eq_refl eq_refl
              eq_refl eq_refl) as (E & G & _).
  split; [exact E | exact G].
Defined.

Lemma C9_nil_manager_witness :
  @Complete asciiOnlyStrings (refHost withAmbient) (unboundWorld withAmbient)
  = (Panics,
     @Build_World (refHost withAmbient)
       (@Build_WebhookBuilder (refHost withAmbient) (Some widget)
          {| Group := ""; Version := ""; Kind := "" |} None
          (Some "ambient config"))
       [] [EvGetConfig]).
Proof.
  destruct (@C9_nil_manager asciiOnlyStrings (refHost withAmbient)
              (unboundWorld withAmbient)) as [A _].
  destruct (A eq_refl eq_refl eq_refl) as [E _]. exact E.
Defined.


(** * Further properties *)

(** ** Paths *)

Lemma length_append (a b : string) :
  String.length (a ++ b) = String.length a + String.length b.
Proof. induction a as [|c a IH]; cbn; [reflexivity | now rewrite IH]. Qed.

Lemma anyByte_append (p : ascii -> bool) (a b : string) :
  anyByte p (a ++ b) = anyByte p a || anyByte p b.
Proof.
  induction a as [|c a IH]; cbn; [reflexivity|].
  now rewrite IH, orb_assoc.
Qed.

Lemma no_dot_after_replacement (s : string) :
  anyByte isDot (dotsReplacedByDashes s) = false.
Proof.
  induction s as [|c s IH]; cbn; [reflexivity|].
  fold (dotsReplacedByDashes s). rewrite IH, orb_false_r.
  unfold isDot, dotToDash. destruct (Ascii.eqb c ".") eqn:E; [reflexivity|exact E].
Qed.

Lemma mapBytes_idempotent (f : ascii -> ascii) (s : string) :
  (forall c, f (f c) = f c) -> mapBytes f (mapBytes f s) = mapBytes f s.
Proof.
  intros Hf. induction s as [|c s IH]; cbn; [reflexivity|].
  now rewrite Hf, IH.
Qed.

Lemma dotToDash_idempotent (c : ascii) : dotToDash (dotToDash c) = dotToDash c.
Proof.
  unfold dotToDash. destruct (Ascii.eqb c ".") eqn:E; [reflexivity|].
  now rewrite E.
Qed.

Lemma lowerByte_idempotent (c : ascii) : lowerByte (lowerByte c) = lowerByte c.
Proof. destruct c as [[] [] [] [] [] [] [] []]; reflexivity. Qed.

Lemma lowerByte_ascii (c : ascii) :
  isASCIIByte c = true -> isASCIIByte (lowerByte c) = true.
Proof.
  destruct c as [[] [] [] [] [] [] [] []]; vm_compute; intros E;
    first [reflexivity | discriminate E].
Qed.

Lemma mapBytes_lower_ascii (s : string) :
  allBytes isASCIIByte s = true ->
  allBytes isASCIIByte (mapBytes lowerByte s) = true.
Proof.
  induction s as [|c s IH]; cbn; [reflexivity|].
  intros E. apply andb_true_iff in E as [Hc Hs].
  apply andb_true_iff. split; [now apply lowerByte_ascii | now apply IH].
Qed.

Section PathExtras.
Context `{GoStrings}.

(** X1: no mutate path is a validate path, whatever the two identities, and
    neither is a prefix of the other. *)
Theorem mutate_and_validate_never_meet (g g' : GroupVersionKind) :
  generateMutatePath g <> generateValidatePath g'
  /\ prefix (generateMutatePath g) (generateValidatePath g') = false
  /\ prefix (generateValidatePath g') (generateMutatePath g) = false.
Proof.
  split; [apply paths_distinct|].
  unfold generateMutatePath, generateValidatePath. cbn. now split.
Qed.

(** X2: an identity with an ASCII kind has the paths of its normal form: the
    group with dashes for dots and the kind in lower case. *)
Theorem paths_of_normalised (g : GroupVersionKind) :
  allBytes isASCIIByte (Kind g) = true ->
  generateMutatePath (normalised g) = generateMutatePath g
  /\ generateValidatePath (normalised g) = generateValidatePath g.
Proof.
  intros Hk.
  assert (G : dotsReplacedByDashes (Group (normalised g))
              = dotsReplacedByDashes (Group g)).
  { cbn. apply mapBytes_idempotent, dotToDash_idempotent. }
  assert (K : ToLower (Kind (normalised g)) = ToLower (Kind g)).
  { cbn. rewrite !ToLower_ascii;
      [apply mapBytes_idempotent, lowerByte_idempotent | exact Hk
      | now apply mapBytes_lower_ascii]. }
  rewrite !generateMutatePath_eq, !generateValidatePath_eq, G, K.
  now split.
Qed.

(** X3: the length of the paths of an identity with an ASCII kind: the prefix,
    two dashes and the three components; the validate path is two bytes
    longer than the mutate path. *)
Theorem path_lengths (g : GroupVersionKind) :
  allBytes isASCIIByte (Kind g) = true ->
  String.length (generateMutatePath g)
  = 10 + String.length (Group g) + String.length (Version g)
      + String.length (Kind g)
  /\ String.length (generateValidatePath g)
     = 2 + String.length (generateMutatePath g).
Proof.
  intros Hk. rewrite generateMutatePath_eq, generateValidatePath_eq.
  rewrite (ToLower_ascii _ Hk).
  change ("/mutate-" ++ ?x)
    with (String "/" (String "m" (String "u" (String "t" (String "a"
            (String "t" (String "e" (String "-" x)))))))).
  change ("/validate-" ++ ?x)
    with (String "/" (String "v" (String "a" (String "l" (String "i"
            (String "d" (String "a" (String "t" (String "e"
            (String "-" x)))))))))).
  cbn [String.length].
  rewrite !length_append. cbn [String.length].
  unfold dotsReplacedByDashes. rewrite !length_mapBytes. lia.
Qed.

(** X4: no dot of the group survives: a path has a dot exactly when the version
    or the lowercased kind has one. *)
Theorem path_dots (g : GroupVersionKind) :
  anyByte isDot (generateMutatePath g)
  = anyByte isDot (Version g) || anyByte isDot (ToLower (Kind g))
  /\ anyByte isDot (generateValidatePath g)
     = anyByte isDot (Version g) || anyByte isDot (ToLower (Kind g)).
Proof.
  rewrite generateMutatePath_eq, generateValidatePath_eq.
  rewrite !anyByte_append, no_dot_after_replacement.
  change (anyByte isDot "/mutate-") with false.
  change (anyByte isDot "/validate-") with false.
  change (anyByte isDot "-") with false.
  cbn [orb]. now split.
Qed.
End PathExtras.

(** ** The builder, in every outcome *)

Section BuilderExtras.
Context `{GoStrings} `{Host}.
Local Open Scope list_scope.

Lemma countEvents_app (p : Event -> bool) (a b : list Event) :
  countEvents p (a ++ b) = countEvents p a + countEvents p b.
Proof. unfold countEvents. now rewrite filter_app, length_app. Qed.

Lemma registerIfNew_full msg g path hook (w : World) :
  registerIfNew msg g path hook w
  = ((if stepPanics path hook (server w) then Panics else Returns tt),
     {| blder := blder w; server := afterDue (server w) path hook;
        trace := trace w ++ stepEvents msg g path hook (server w) |}).
Proof.
  destruct w as [b s t].
  unfold registerIfNew, stepPanics, afterDue, stepEvents. cbn [server blder trace].
  destruct hook as [h|]; [|now rewrite app_nil_r].
  destruct (handledAt s path); [now rewrite app_nil_r|].
  rewrite <- app_assoc. cbn [app].
  destruct (ServerRegister s path h); reflexivity.
Qed.

(** [Complete] on a bound manager, in closed form. *)
Lemma Complete_bound_full (w : World) (m : Manager) :
  mgr (blder w) = Some m ->
  let g := fst (GVKForObject (apiType (blder w)) (GetScheme m)) in
  let w0 := resolvedWorld w m g in
  let dh := defaultingHandler (apiType (blder w)) in
  let vh := validatingHandler (apiType (blder w)) in
  let s1 := afterDue (server w) (generateMutatePath g) dh in
  let e1 := stepEvents "Registering a mutating webhook" g
              (generateMutatePath g) dh (server w) in
  let e2 := stepEvents "Registering a validating webhook" g
              (generateValidatePath g) vh s1 in
  Complete w =
  match snd (GVKForObject (apiType (blder w)) (GetScheme m)) with
  | Some e => (Returns (Some e), w0)
  | None =>
      if stepPanics (generateMutatePath g) dh (server w) then
        (Panics, {| blder := blder w0; server := s1; trace := trace w0 ++ e1 |})
      else if stepPanics (generateValidatePath g) vh s1 then
        (Panics,
         {| blder := blder w0;
            server := afterDue s1 (generateValidatePath g) vh;
            trace := (trace w0 ++ e1) ++ e2 |})
      else
        (Returns None,
         {| blder := blder w0;
            server := afterDue s1 (generateValidatePath g) vh;
            trace := ((trace w0 ++ e1) ++ e2) ++ conversionEvents m (blder w0) |})
  end.
Proof.
  intros Hm. cbv zeta. rewrite (Complete_run w Hm).
  destruct (snd (GVKForObject (apiType (blder w)) (GetScheme m))); [reflexivity|].
  unfold completeResolved. rewrite registerIfNew_full.
  cbn [resolvedWorld blder server trace apiType].
  destruct (stepPanics (generateMutatePath _) _ (server w)); [reflexivity|].
  rewrite registerIfNew_full. cbn [blder server trace apiType].
  destruct (stepPanics (generateValidatePath _) _ _); reflexivity.
Qed.

Lemma stepPanics_afterDue path hook (s : Server) :
  stepPanics path hook s = true -> afterDue s path hook = s.
Proof.
  unfold stepPanics, afterDue. destruct hook as [h|]; [|reflexivity].
  destruct (handledAt s path); [reflexivity|].
  now destruct (ServerRegister s path h).
Qed.

Lemma registrations_stepEvents msg g path hook (s : Server) :
  registrations (stepEvents msg g path hook s) = due s path hook.
Proof.
  unfold stepEvents, due. destruct hook as [h|]; [|reflexivity].
  now destruct (handledAt s path).
Qed.

Lemma registrations_conversionEvents (m : Manager) (b : WebhookBuilder) :
  registrations (conversionEvents m b) = [].
Proof. unfold conversionEvents. now destruct (CheckConvertibility _ _). Qed.

Lemma count_stepEvents (p : Event -> bool) msg g path hook (s : Server) :
  (forall a b c, p (EvLogInfo a b c) = false) ->
  (forall a b, p (EvRegister a b) = false) ->
  countEvents p (stepEvents msg g path hook s) = 0.
Proof.
  intros P1 P2. unfold stepEvents, countEvents.
  destruct hook as [h|]; [|reflexivity].
  destruct (handledAt s path); [reflexivity|].
  cbn. now rewrite P1, P2.
Qed.

Lemma length_due (s : Server) path hook : List.length (due s path hook) <= 1.
Proof.
  unfold due. destruct hook as [h|]; [|cbn; lia].
  destruct (handledAt s path); cbn; lia.
Qed.

Lemma infoLogs_stepEvents msg g path hook (s : Server) :
  countEvents isInfoLog (stepEvents msg g path hook s)
  = List.length (due s path hook).
Proof.
  unfold stepEvents, due, countEvents. destruct hook as [h|]; [|reflexivity].
  now destruct (handledAt s path).
Qed.

Lemma lookups_stepEvents msg g path hook (s : Server) :
  lookups (stepEvents msg g path hook s) = 0.
Proof.
  unfold stepEvents. destruct hook as [h|]; [|reflexivity].
  now destruct (handledAt s path).
Qed.

Lemma lookups_conversionEvents (m : Manager) (b : WebhookBuilder) :
  lookups (conversionEvents m b) = 0.
Proof. unfold conversionEvents. now destruct (CheckConvertibility _ _). Qed.

Lemma Complete_unbound_run (w : World) :
  mgr (blder w) = None ->
  Complete w =
  match config (blder w) with
  | Some _ => (Panics, w)
  | None =>
      (match snd getConfig with
       | Some e => Returns (Some e)
       | None => Panics
       end,
       {| blder := {| apiType := apiType (blder w); gvk := gvk (blder w);
                      mgr := None; config := fst getConfig |};
          server := server w; trace := trace w ++ [EvGetConfig] |})
  end.
Proof.
  intros Hm. destruct w as [[t g mg c] s tr]. cbn in Hm. subst mg.
  unfold Complete, bind. rewrite loadRestConfig_run. cbn.
  destruct c as [c|]; cbn; [reflexivity|].
  now destruct (snd getConfig).
Qed.

(** X5: whatever the outcome, [Complete] leaves the target type and the manager
    of the builder as they are, stores the resolved configuration, and with
    a bound manager overwrites the identity with what the registry lookup
    returned, also when the lookup fails or [Register] panics. *)
Theorem Complete_builder_fields (w : World) :
  apiType (blder (snd (Complete w))) = apiType (blder w)
  /\ mgr (blder (snd (Complete w))) = mgr (blder w)
  /\ config (blder (snd (Complete w))) = resolvedConfig (blder w)
  /\ gvk (blder (snd (Complete w)))
     = match mgr (blder w) with
       | Some m => fst (GVKForObject (apiType (blder w)) (GetScheme m))
       | None => gvk (blder w)
       end.
Proof.
  destruct (mgr (blder w)) as [m|] eqn:Hm.
  - rewrite (Complete_bound_full w Hm).
    destruct (snd (GVKForObject _ _));
      [|destruct (stepPanics (generateMutatePath _) _ _);
        [|destruct (stepPanics (generateValidatePath _) _ _)]];
      cbn; now rewrite ?Hm.
  - rewrite (Complete_unbound_run w Hm). unfold resolvedConfig. rewrite Hm.
    destruct (config (blder w)) as [c|] eqn:Hc; cbn; [now rewrite Hc|].
    now repeat split.
Qed.

(** X6: [Complete] calls the ambient loader once when the builder has neither a
    config nor a manager, and never otherwise. *)
Theorem ambient_loader_calls (w : World) :
  countEvents isAmbientLoad (trace (snd (Complete w)))
  = countEvents isAmbientLoad (trace w)
    + match config (blder w), mgr (blder w) with
      | None, None => 1
      | _, _ => 0
      end.
Proof.
  assert (S : forall msg g path hook s,
             countEvents isAmbientLoad (stepEvents msg g path hook s) = 0)
    by (intros; now apply count_stepEvents).
  assert (C : forall m b, countEvents isAmbientLoad (conversionEvents m b) = 0).
  { intros m b. unfold conversionEvents. now destruct (CheckConvertibility _ _). }
  destruct (mgr (blder w)) as [m|] eqn:Hm.
  - rewrite (Complete_bound_full w Hm).
    destruct (snd (GVKForObject _ _));
      [|destruct (stepPanics (generateMutatePath _) _ _);
        [|destruct (stepPanics (generateValidatePath _) _ _)]];
      cbn [snd trace resolvedWorld]; rewrite !countEvents_app, ?S, ?C;
      destruct (config (blder w)); cbn; lia.
  - rewrite (Complete_unbound_run w Hm).
    destruct (config (blder w)); cbn [snd trace]; [lia|].
    rewrite countEvents_app. reflexivity.
Qed.

(** X7: a config that is set does not make up for a nil manager: [Complete]
    panics at the registry lookup and leaves the world as it is, the
    ambient loader not called. *)
Theorem explicit_config_nil_manager (w : World) (c : Config) :
  config (blder w) = Some c -> mgr (blder w) = None ->
  Complete w = (Panics, w).
Proof. intros Hc Hm. now rewrite (Complete_unbound_run w Hm), Hc. Qed.

(** X8: when [Register] panics in the mutating step, [Complete] panics: the
    server is as before, the validating step and the conversion check are
    not reached. *)
Theorem mutating_register_panic (w : World) (m : Manager)
  (g : GroupVersionKind) (mwh : Handler) :
  mgr (blder w) = Some m ->
  GVKForObject (apiType (blder w)) (GetScheme m) = (g, None) ->
  defaultingHandler (apiType (blder w)) = Some mwh ->
  handledAt (server w) (generateMutatePath g) = false ->
  ServerRegister (server w) (generateMutatePath g) mwh = None ->
  fst (Complete w) = Panics
  /\ server (snd (Complete w)) = server w
  /\ registrations (trace (snd (Complete w)))
     = registrations (trace w) ++ [(generateMutatePath g, mwh)]
  /\ countEvents isConversionCheck (trace (snd (Complete w)))
     = countEvents isConversionCheck (trace w).
Proof.
  intros Hm Hg Hd Nh Hp. rewrite (Complete_bound_full w Hm), Hg.
  cbn [fst snd]. rewrite Hd.
  unfold stepPanics, afterDue, stepEvents. rewrite Nh, Hp.
  cbn [isSome negb fst snd trace server resolvedWorld].
  rewrite !registrations_app, !countEvents_app.
  cbn [registrations]. rewrite app_nil_r.
  split; [reflexivity|]. split; [reflexivity|]. split; [reflexivity|].
  unfold countEvents. cbn. lia.
Qed.

(** X9: when [Register] panics in the validating step, [Complete] panics with
    the registration of the mutating step in place, and the conversion
    check is not reached. *)
Theorem validating_register_panic (w : World) (m : Manager)
  (g : GroupVersionKind) (vwh : Handler) :
  mgr (blder w) = Some m ->
  GVKForObject (apiType (blder w)) (GetScheme m) = (g, None) ->
  let dh := defaultingHandler (apiType (blder w)) in
  let s1 := afterDue (server w) (generateMutatePath g) dh in
  stepPanics (generateMutatePath g) dh (server w) = false ->
  validatingHandler (apiType (blder w)) = Some vwh ->
  handledAt s1 (generateValidatePath g) = false ->
  ServerRegister s1 (generateValidatePath g) vwh = None ->
  fst (Complete w) = Panics
  /\ server (snd (Complete w)) = s1
  /\ registrations (trace (snd (Complete w)))
     = registrations (trace w) ++ due (server w) (generateMutatePath g) dh
         ++ [(generateValidatePath g, vwh)]
  /\ countEvents isConversionCheck (trace (snd (Complete w)))
     = countEvents isConversionCheck (trace w).
Proof.
  intros Hm Hg dh s1 Hd Hv Nh Hp. rewrite (Complete_bound_full w Hm), Hg.
  cbn [fst snd]. fold dh. rewrite Hd. fold s1. rewrite Hv.
  assert (P : stepPanics (generateValidatePath g) (Some vwh) s1 = true)
    by (unfold stepPanics; now rewrite Nh, Hp).
  rewrite P. cbn [fst snd server trace resolvedWorld].
  rewrite (stepPanics_afterDue _ _ _ P).
  rewrite !registrations_app, !countEvents_app, !registrations_stepEvents.
  rewrite !count_stepEvents by reflexivity.
  unfold due at 2. rewrite Nh. cbn.
  rewrite app_nil_r, <- app_assoc. repeat split. lia.
Qed.

(** X10: on a bound manager the conversion check runs once when [Complete]
    returns nil and not at all otherwise, and an error is logged exactly
    when [Complete] returns nil and the check failed. *)
Theorem conversion_check_runs (w : World) (m : Manager) :
  mgr (blder w) = Some m ->
  countEvents isConversionCheck (trace (snd (Complete w)))
  = countEvents isConversionCheck (trace w)
    + match fst (Complete w) with
      | Returns None => 1
      | _ => 0
      end
  /\ countEvents isErrorLog (trace (snd (Complete w)))
     = countEvents isErrorLog (trace w)
       + match fst (Complete w),
               CheckConvertibility (GetScheme m) (apiType (blder w)) with
         | Returns None, Some _ => 1
         | _, _ => 0
         end.
Proof.
  intros Hm. rewrite (Complete_bound_full w Hm).
  destruct (snd (GVKForObject _ _));
    [|destruct (stepPanics (generateMutatePath _) _ _);
      [|destruct (stepPanics (generateValidatePath _) _ _)]];
    unfold conversionEvents;
    cbn [fst snd trace resolvedWorld blder apiType];
    rewrite !countEvents_app, ?count_stepEvents by reflexivity;
    destruct (CheckConvertibility (GetScheme m) (apiType (blder w)));
    cbn; split; lia.
Qed.

(** X11: whatever the outcome, [Complete] logs one info line per call of
    [Register], calls [Register] at most twice and looks the type up at
    most once. *)
Theorem logs_and_calls (w : World) :
  countEvents isInfoLog (trace (snd (Complete w)))
  + List.length (registrations (trace w))
  = List.length (registrations (trace (snd (Complete w))))
    + countEvents isInfoLog (trace w)
  /\ List.length (registrations (trace (snd (Complete w))))
     <= List.length (registrations (trace w)) + 2
  /\ lookups (trace (snd (Complete w))) <= lookups (trace w) + 1.
Proof.
  destruct (mgr (blder w)) as [m|] eqn:Hm.
  - rewrite (Complete_bound_full w Hm).
    set (g := fst (GVKForObject _ _)).
    set (dh := defaultingHandler _). set (vh := validatingHandler _).
    pose proof (length_due (server w) (generateMutatePath g) dh) as L1.
    pose proof (length_due (afterDue (server w) (generateMutatePath g) dh)
                  (generateValidatePath g) vh) as L2.
    assert (C : forall b, countEvents isInfoLog (conversionEvents m b) = 0).
    { intros b. unfold conversionEvents. now destruct (CheckConvertibility _ _). }
    destruct (snd (GVKForObject _ _));
      [|destruct (stepPanics (generateMutatePath _) _ _);
        [|destruct (stepPanics (generateValidatePath _) _ _)]];
      cbn [snd trace resolvedWorld];
      rewrite !countEvents_app, !registrations_app, !lookups_app,
        ?infoLogs_stepEvents, ?registrations_stepEvents, ?lookups_stepEvents,
        ?registrations_conversionEvents, ?lookups_conversionEvents, ?C,
        ?length_app;
      cbn -[generateMutatePath generateValidatePath]; lia.
  - rewrite (Complete_unbound_run w Hm).
    destruct (config (blder w)); cbn [snd trace]; [lia|].
    rewrite countEvents_app, registrations_app, lookups_app. cbn.
    rewrite app_nil_r. lia.
Qed.

(** X12: on a bound manager, whatever the outcome, every call of [Register] is at
    the mutate path or the validate path of the identity the lookup
    returned, with the handler of that capability, and the mutate path was
    not handled on the server [Complete] started from. *)
Theorem registered_paths (w : World) (m : Manager) :
  mgr (blder w) = Some m ->
  let g := fst (GVKForObject (apiType (blder w)) (GetScheme m)) in
  exists l,
    registrations (trace (snd (Complete w))) = registrations (trace w) ++ l
    /\ forall p h,
         In (p, h) l ->
         (p = generateMutatePath g
          /\ defaultingHandler (apiType (blder w)) = Some h
          /\ handledAt (server w) p = false)
         \/ (p = generateValidatePath g
             /\ validatingHandler (apiType (blder w)) = Some h).
Proof.
  intros Hm g. rewrite (Complete_bound_full w Hm). fold g.
  set (dh := defaultingHandler _). set (vh := validatingHandler _).
  set (s1 := afterDue (server w) (generateMutatePath g) dh).
  assert (D1 : forall p h, In (p, h) (due (server w) (generateMutatePath g) dh) ->
                           p = generateMutatePath g /\ dh = Some h
                           /\ handledAt (server w) p = false).
  { intros p h. unfold due. destruct dh as [h'|]; [|intros []].
    destruct (handledAt (server w) (generateMutatePath g)) eqn:Eh; [intros []|].
    intros [E|[]]. injection E as <- <-. now repeat split. }
  assert (D2 : forall p h, In (p, h) (due s1 (generateValidatePath g) vh) ->
                           p = generateValidatePath g /\ vh = Some h).
  { intros p h. unfold due. destruct vh as [h'|]; [|intros []].
    destruct (handledAt s1 (generateValidatePath g)); [intros []|].
    intros [E|[]]. injection E as <- <-. now split. }
  destruct (snd (GVKForObject _ _));
    [|destruct (stepPanics (generateMutatePath _) _ _);
      [|destruct (stepPanics (generateValidatePath _) _ _)]];
    cbn [snd trace resolvedWorld];
    rewrite !registrations_app, ?registrations_stepEvents,
      ?registrations_conversionEvents; cbn [registrations];
    rewrite ?app_nil_r, <- ?app_assoc.
  - exists []. split; [now rewrite app_nil_r | intros p h []].
  - exists (due (server w) (generateMutatePath g) dh).
    split; [reflexivity|]. intros p h I. left. now apply D1.
  - exists (due (server w) (generateMutatePath g) dh
            ++ due s1 (generateValidatePath g) vh).
    split; [reflexivity|]. intros p h I. apply in_app_or in I as [I|I];
      [left; now apply D1 | right; now apply D2].
  - exists (due (server w) (generateMutatePath g) dh
            ++ due s1 (generateValidatePath g) vh).
    split; [reflexivity|]. intros p h I. apply in_app_or in I as [I|I];
      [left; now apply D1 | right; now apply D2].
Qed.

(** X13: a mutating step that is skipped does not hold back the validating step:
    with both handlers at hand, the mutate path handled and the validate
    path free, [Complete] registers the validating handler only. *)
Theorem validating_after_skipped_mutating (w : World) (m : Manager)
  (g : GroupVersionKind) (mwh vwh : Handler) (s' : Server) :
  mgr (blder w) = Some m ->
  GVKForObject (apiType (blder w)) (GetScheme m) = (g, None) ->
  defaultingHandler (apiType (blder w)) = Some mwh ->
  validatingHandler (apiType (blder w)) = Some vwh ->
  handledAt (server w) (generateMutatePath g) = true ->
  handledAt (server w) (generateValidatePath g) = false ->
  ServerRegister (server w) (generateValidatePath g) vwh = Some s' ->
  fst (Complete w) = Returns None
  /\ registrations (trace (snd (Complete w)))
     = registrations (trace w) ++ [(generateValidatePath g, vwh)]
  /\ server (snd (Complete w)) = s'.
Proof.
  intros Hm Hg Hd Hv Hh Nh Hr. rewrite (Complete_bound_full w Hm), Hg.
  cbn [fst snd]. rewrite Hd, Hv.
  unfold stepPanics, afterDue, stepEvents. rewrite Hh, Nh, Hr.
  cbn [isSome negb fst snd trace server resolvedWorld].
  rewrite !registrations_app, registrations_conversionEvents. cbn.
  now rewrite !app_nil_r.
Qed.

(** X14: with a config set or a manager bound, config resolution returns no
    error, and running it again changes nothing. *)
Theorem loadRestConfig_stable (w : World) :
  config (blder w) <> None \/ mgr (blder w) <> None ->
  fst (loadRestConfig w) = Returns None
  /\ loadRestConfig (snd (loadRestConfig w))
     = (Returns None, snd (loadRestConfig w))
  /\ trace (snd (loadRestConfig w)) = trace w.
Proof.
  intros Hs. rewrite (loadRestConfig_run w).
  destruct (config (blder w)) as [c|] eqn:Hc; cbn [fst snd].
  - rewrite (loadRestConfig_run w), Hc. now repeat split.
  - destruct (mgr (blder w)) as [m|] eqn:Hm; [|destruct Hs as [N|N]; now elim N].
    cbn [fst snd]. rewrite loadRestConfig_run. cbn.
    split; [reflexivity|]. split; [|reflexivity].
    now destruct (GetConfig m).
Qed.

Lemma last_cons_default {A} (x d d' : A) (l : list A) :
  List.last (x :: l) d = List.last (x :: l) d'.
Proof.
  revert x; induction l as [|y l IH]; intros x; [reflexivity|].
  cbn [List.last]. apply (IH y).
Qed.

Lemma fold_For (ts : list (option Object)) (b : WebhookBuilder) :
  config (List.fold_left For ts b) = config b
  /\ gvk (List.fold_left For ts b) = gvk b
  /\ mgr (List.fold_left For ts b) = mgr b
  /\ apiType (List.fold_left For ts b) = List.last ts (apiType b).
Proof.
  revert b; induction ts as [|t ts IH]; intros b; [now repeat split|].
  cbn [List.fold_left]. destruct (IH (For b t)) as (C & G & M & T).
  cbn in C, G, M, T. repeat split; try assumption.
  rewrite T. destruct ts as [|u ts]; [reflexivity|].
  cbn [List.last]. apply last_cons_default.
Qed.

(** X15: a builder made by [WebhookManagedBy] and any number of calls of [For]
    has no config, the zero identity, the manager it was given and the type
    of the last call of [For]; config resolution on it takes the config of
    the manager when there is one and calls the ambient loader if not. *)
Theorem builder_from_the_api (m : option Manager) (ts : list (option Object))
  (s : Server) (t : list Event) :
  let b := builderOf m ts in
  let w := {| blder := b; server := s; trace := t |} in
  config b = None /\ gvk b = zeroGVK /\ mgr b = m
  /\ apiType b = List.last ts None
  /\ config (blder (snd (loadRestConfig w)))
     = match m with
       | Some mm => GetConfig mm
       | None => fst getConfig
       end
  /\ countEvents isAmbientLoad (trace (snd (loadRestConfig w)))
     = countEvents isAmbientLoad t
       + match m with Some _ => 0 | None => 1 end.
Proof.
  cbv zeta. unfold builderOf.
  destruct (fold_For ts (WebhookManagedBy m)) as (C & G & M & T).
  cbn in C, G, M, T.
  split; [exact C|]. split; [exact G|]. split; [exact M|]. split; [exact T|].
  rewrite loadRestConfig_run. cbn [blder]. rewrite C, M.
  destruct m as [mm|]; cbn [snd blder config trace].
  - split; [reflexivity | now rewrite Nat.add_0_r].
  - rewrite countEvents_app. now split.
Qed.
End BuilderExtras.

(** ** The further properties at work *)

Lemma paths_of_normalised_witness :
  allBytes isASCIIByte (Kind widgetGVK) = true
  /\ normalised widgetGVK
     = {| Group := "apps-example-com"; Version := "v1"; Kind := "widget" |}
  /\ @generateMutatePath asciiOnlyStrings (normalised widgetGVK)
     = @generateMutatePath asciiOnlyStrings widgetGVK.
Proof.
  split; [reflexivity|]. split; [reflexivity|].
  apply (@paths_of_normalised asciiOnlyStrings widgetGVK). reflexivity.
Defined.

Lemma path_lengths_witness :
  String.length (@generateMutatePath asciiOnlyStrings widgetGVK) = 34
  /\ String.length (@generateValidatePath asciiOnlyStrings widgetGVK) = 36.
Proof.
  destruct (@path_lengths asciiOnlyStrings widgetGVK eq_refl) as [M V].
  split; [exact M | exact V].
Defined.

Lemma explicit_config_nil_manager_witness :
  @Complete asciiOnlyStrings (refHost withAmbient) explicitWorld
  = (Panics, explicitWorld).
Proof.
  exact (@explicit_config_nil_manager asciiOnlyStrings (refHost withAmbient)
           explicitWorld "explicit config" eq_refl eq_refl).
Defined.

Lemma mutating_register_panic_witness :
  let w := panickyWorld (fun _ => true) in
  fst (@Complete asciiOnlyStrings _ w) = Panics
  /\ server (snd (@Complete asciiOnlyStrings _ w)) = []
  /\ registrations (trace (snd (@Complete asciiOnlyStrings _ w)))
     = [("/mutate-apps-example-com-v1-widget", 1)].
Proof.
  cbv zeta.
  destruct (@mutating_register_panic asciiOnlyStrings
              (panickyHost (fun _ => true)) (panickyWorld (fun _ => true))
              (@Build_Manager (panickyHost (fun _ => true))
                 (Some "manager config") tt)
              widgetGVK 1 eq_refl eq_refl eq_refl eq_refl eq_refl)
    as (E & S & G & _).
  split; [exact E|]. split; [exact S | exact G].
Defined.

Lemma validating_register_panic_witness :
  let w := panickyWorld (prefix "/validate-") in
  fst (@Complete asciiOnlyStrings _ w) = Panics
  /\ server (snd (@Complete asciiOnlyStrings _ w))
     = [("/mutate-apps-example-com-v1-widget", 1)]
  /\ registrations (trace (snd (@Complete asciiOnlyStrings _ w)))
     = [("/mutate-apps-example-com-v1-widget", 1);
        ("/validate-apps-example-com-v1-widget", 2)].
Proof.
  cbv zeta.
  destruct (@validating_register_panic asciiOnlyStrings
              (panickyHost (prefix "/validate-"))
              (panickyWorld (prefix "/validate-"))
              (@Build_Manager (panickyHost (prefix "/validate-"))
                 (Some "manager config") tt)
              widgetGVK 2 eq_refl eq_refl eq_refl eq_refl eq_refl eq_refl)
    as (E & S & G & _).
  split; [exact E|]. split; [exact S | exact G].
Defined.

Lemma conversion_check_runs_witness :
  countEvents isConversionCheck
    (trace (snd (@Complete asciiOnlyStrings (refHost noAmbient)
                   (boundWorld noAmbient widget)))) = 1
  /\ countEvents isErrorLog
       (trace (snd (@Complete asciiOnlyStrings (refHost noAmbient)
                      (boundWorld noAmbient widget)))) = 1
  /\ countEvents isConversionCheck
       (trace (snd (@Complete asciiOnlyStrings (refHost noAmbient)
                      (boundWorld noAmbient stranger)))) = 0.
Proof.
  destruct (@conversion_check_runs asciiOnlyStrings (refHost noAmbient)
              (boundWorld noAmbient widget) (refManager noAmbient) eq_refl)
    as [C L].
  destruct (@conversion_check_runs asciiOnlyStrings (refHost noAmbient)
              (boundWorld noAmbient stranger) (refManager noAmbient) eq_refl)
    as [C' _].
  split; [exact C|]. split; [exact L | exact C'].
Defined.

Lemma registered_paths_witness :
  exists l,
    registrations (trace (snd (@Complete asciiOnlyStrings (refHost noAmbient)
                                 (boundWorld noAmbient widget)))) = l
    /\ forall p h,
         In (p, h) l ->
         p = "/mutate-apps-example-com-v1-widget"
         \/ p = "/validate-apps-example-com-v1-widget".
Proof.
  destruct (@registered_paths asciiOnlyStrings (refHost noAmbient)
              (boundWorld noAmbient widget) (refManager noAmbient) eq_refl)
    as (l & E & P).
  exists l. split; [exact E|].
  intros p h I. destruct (P p h I) as [(-> & _ & _) | (-> & _)];
    [left | right]; reflexivity.
Defined.

Lemma validating_after_skipped_mutating_witness :
  fst (@Complete asciiOnlyStrings (refHost noAmbient) halfHandledWorld)
  = Returns None
  /\ registrations (trace (snd (@Complete asciiOnlyStrings (refHost noAmbient)
                                  halfHandledWorld)))
     = [("/validate-apps-example-com-v1-widget", 2)].
Proof.
  destruct (@validating_after_skipped_mutating asciiOnlyStrings
              (refHost noAmbient) halfHandledWorld
              (refManager noAmbient) widgetGVK 1 2
              [("/validate-apps-example-com-v1-widget", 2);
               ("/mutate-apps-example-com-v1-widget", 9)]
              eq_refl eq_refl eq_refl eq_refl eq_refl eq_refl eq_refl)
    as (E & G & _).
  split; [exact E | exact G].
Defined.

Lemma loadRestConfig_stable_witness :
  config (blder (snd (@loadRestConfig (refHost noAmbient)
                        (boundWorld noAmbient widget))))
  = Some "manager config"
  /\ @loadRestConfig (refHost noAmbient)
       (snd (@loadRestConfig (refHost noAmbient) (boundWorld noAmbient widget)))
     = (Returns None,
        snd (@loadRestConfig (refHost noAmbient) (boundWorld noAmbient widget))).
Proof.
  destruct (@loadRestConfig_stable (refHost noAmbient)
              (boundWorld noAmbient widget)
              (or_intror (fun E => eq_ind (Some (refManager noAmbient))
                                     (fun o => match o with
                                               | Some _ => True
                                               | None => False
                                               end) I None E)))
    as (_ & S & _).
  split; [reflexivity | exact S].
Defined.
